(** * Scope validator: a shallow embedding of [scope_validator.py] and of the
    copy of its logic in [integration_specialist_tool.py].

    Python strings are sequences of Unicode code points; they are modelled as
    lists of [N].  The two things the Python runtime decides and the
    repository does not are taken as parameters: the case mapping of the
    code points outside ASCII (used by [str.lower]) and the order in which a
    [set] is iterated (used by [sorted]).

    After the two modules of the analysis come its callers: the two
    command-line scripts, [check_scope_standalone.py] and [check_scope.py],
    and the handler of the tool in [integration_specialist_tool.py]. *)

From Stdlib Require Import String Ascii DecimalString.
From stdpp Require Import gmap sets list sorting.

Local Open Scope N_scope.
Local Open Scope list_scope.

(** ** Python strings *)

Abbreviation pystr := (list N).

(** An ASCII literal as a Python string. *)
Definition py (s : string) : pystr :=
  (fun a : ascii => N_of_ascii a) <$> list_ascii_of_string s.

(** [s.startswith(p)]. *)
Fixpoint startswith (p s : pystr) : bool :=
  match p, s with
  | [], _ => true
  | _ :: _, [] => false
  | a :: p', b :: s' => (a =? b) && startswith p' s'
  end.

(** [sub in s] on strings: [sub] occurs in [s] as a contiguous run. *)
Fixpoint contains (sub s : pystr) : bool :=
  startswith sub s ||
  match s with
  | [] => false
  | _ :: s' => contains sub s'
  end.

(** [sep.join(l)]. *)
Fixpoint join (sep : pystr) (l : list pystr) : pystr :=
  match l with
  | [] => []
  | x :: l' =>
      match l' with
      | [] => x
      | _ :: _ => x ++ sep ++ join sep l'
      end
  end.

(** [s.split(sep)] for a separator of one character: the result always has
    at least one segment. *)
Fixpoint split (sep : N) (s : pystr) : list pystr :=
  match s with
  | [] => [[]]
  | c :: s' =>
      if c =? sep then [] :: split sep s'
      else match split sep s' with
           | seg :: segs => (c :: seg) :: segs
           | [] => [[c]]
           end
  end.

(** [str(n)] for a non-negative integer. *)
Definition str_of_nat (n : nat) : pystr :=
  py (NilEmpty.string_of_uint (Nat.to_uint n)).

(** [repr(s)] for a string of printable characters without quote or
    backslash, which is what the keyword lists hold. *)
Definition repr_str (s : pystr) : pystr := py "'" ++ s ++ py "'".

(** [str(l)] for a list of such strings, as an f-string renders it. *)
Definition repr_list (l : list pystr) : pystr :=
  py "[" ++ join (py ", ") (repr_str <$> l) ++ py "]".

(** Comparison of strings, [a <= b]: code point by code point, a proper
    prefix first. *)
Fixpoint str_leb (a b : pystr) : bool :=
  match a, b with
  | [], _ => true
  | _ :: _, [] => false
  | x :: a', y :: b' =>
      if x <? y then true else if y <? x then false else str_leb a' b'
  end.

Definition str_le (a b : pystr) : Prop := str_leb a b = true.

#[global] Instance str_le_dec (a b : pystr) : Decision (str_le a b) :=
  bool_eq_dec (str_leb a b) true.

(** [str.lower]: every ASCII code point is mapped on its own, ['A'..'Z'] to
    ['a'..'z'] and the others to themselves; a code point outside ASCII is
    replaced by what the runtime's Unicode tables give for it ([to_lower_full],
    which sees the whole string and the position, as the rule for the final
    sigma does). *)
Definition ascii_tolower (c : N) : N :=
  if (65 <=? c) && (c <=? 90) then c + 32 else c.

Section Lower.
Variable to_lower_full : pystr -> nat -> N -> pystr.

Definition lower_ucs4 (data : pystr) (i : nat) (c : N) : pystr :=
  if c <? 128 then [ascii_tolower c] else to_lower_full data i c.

Fixpoint do_lower (data : pystr) (i : nat) (rest : pystr) : pystr :=
  match rest with
  | [] => []
  | c :: rest' => lower_ucs4 data i c ++ do_lower data (S i) rest'
  end.

Definition lower (s : pystr) : pystr := do_lower s 0%nat s.
End Lower.

(** [sorted(X)] for a set of strings: the elements, in the order the set
    yields them, sorted. *)
Definition sorted (set_iter : gset pystr -> list pystr) (X : gset pystr) : list pystr :=
  merge_sort str_le (set_iter X).

(** ** Values shared by the two modules *)

(** The characters of the messages that are outside ASCII, and the newline. *)
Definition warning_sign : pystr := [9888; 65039]%N.
Definition check_mark : pystr := [9989]%N.
Definition nl : pystr := [10]%N.
Definition slash : N := 47%N.

(** The dict a successful analysis returns, one field per key. *)
Record ScopeDecision := {
  approved : bool;
  scope_level : pystr;
  file_count : nat;
  warnings : list pystr;
  files : list pystr
}.

(** A call either raises an exception or returns a value. *)
Inductive result (E A : Type) : Type :=
  | Raised (e : E)
  | Returned (a : A).
Arguments Raised {E A} e.
Arguments Returned {E A} a.

(** ** scope_validator.py *)

Module ScopeValidator.

(** The exception: its message and its two attributes. *)
Record ScopeViolationError := {
  exc_message : pystr;
  exc_file_count : nat;
  exc_max_allowed : nat
}.

Definition INFRASTRUCTURE_FILES : list pystr :=
  [ py "Dockerfile";
    py "docker-compose.yml";
    py "docker-compose.yaml";
    py "nginx.conf";
    py ".k8s/";
    py "kubernetes/";
    py "terraform/";
    py ".tf";
    py ".github/workflows/";
    py "Jenkinsfile";
    py ".circleci/" ].

Section Runtime.
Variable to_lower_full : pystr -> nat -> N -> pystr.
Variable set_iter : gset pystr -> list pystr.

Definition detect_anti_patterns (files : list pystr) (description : pystr) : list pystr :=
  let warnings : list pystr := [] in
  (* Check 1 *)
  let desc_lower := lower to_lower_full description in
  let warnings :=
    if existsb (fun keyword => contains keyword desc_lower)
         [py "ui"; py "css"; py "style"; py "button"; py "layout"]
    then
      let infra_found :=
        List.filter (fun f => existsb (fun infra => contains infra f) INFRASTRUCTURE_FILES) files in
      match infra_found with
      | _ :: _ =>
          warnings ++
          [ warning_sign ++ py " ANTI-PATTERN: Infrastructure files modified for UI issue!" ++ nl ++
            py "   Files: " ++ join (py ", ") infra_found ++ nl ++
            py "   Recommendation: Keep infrastructure changes separate from UI fixes" ]
      | [] => warnings
      end
    else warnings in
  (* Check 2 *)
  let top_dirs : gset pystr :=
    foldl (fun top_dirs f =>
             let parts := split slash f in
             match parts with
             | part0 :: _ :: _ => {[ part0 ]} ∪ top_dirs
             | _ => top_dirs
             end) ∅ files in
  let warnings :=
    if (3 <? size top_dirs)%nat then
      warnings ++
      [ warning_sign ++ py " ANTI-PATTERN: Changes span " ++ str_of_nat (size top_dirs) ++
        py " unrelated modules: " ++ join (py ", ") (sorted set_iter top_dirs) ++ nl ++
        py "   Recommendation: Split into focused changes per module" ]
    else warnings in
  (* Check 3 *)
  let complexity_keywords :=
    [py "factory"; py "manager"; py "handler"; py "builder"; py "strategy"; py "adapter"] in
  let simple_fix_keywords := [py "fix"; py "bug"; py "typo"; py "minor"] in
  let desc_has_complexity := existsb (fun kw => contains kw desc_lower) complexity_keywords in
  let desc_is_simple := existsb (fun kw => contains kw desc_lower) simple_fix_keywords in
  let warnings :=
    if desc_has_complexity && desc_is_simple then
      warnings ++
      [ warning_sign ++ py " ANTI-PATTERN: Complex abstractions (" ++
        repr_list (List.filter (fun kw => contains kw desc_lower) complexity_keywords) ++
        py ") for simple fix" ++ nl ++
        py "   Recommendation: Use simplest solution that works" ]
    else warnings in
  warnings.

Definition analyze_scope (files : list pystr) (description : pystr)
  : result ScopeViolationError ScopeDecision :=
  let file_count := length files in
  if (10 <? file_count)%nat then
    Raised {|
      exc_message :=
        py "Scope limit exceeded: " ++ str_of_nat file_count ++ py " files requested (max: 10)" ++ nl ++
        py "Recommendation: Break this change into smaller, focused tasks" ++ nl ++
        py "Files: " ++ join (py ", ") (take 5 files) ++
        (if (5 <? length files)%nat then py "..." else []);
      exc_file_count := file_count;
      exc_max_allowed := 10
    |}
  else
    let '(scope_level, scope_message) :=
      if (file_count <=? 3)%nat then
        (py "LOCAL", check_mark ++ py " Local scope - auto-approved")
      else if (file_count <=? 5)%nat then
        (py "MODERATE", warning_sign ++ py " Moderate scope - approved with caution")
      else
        (py "EXTENSIVE", warning_sign ++ py " Extensive scope - approaching limit (max 10 files)") in
    let warnings := detect_anti_patterns files description in
    let warnings :=
      if bool_decide (scope_level ∈ [py "MODERATE"; py "EXTENSIVE"])
      then scope_message :: warnings
      else warnings in
    Returned {|
      approved := true;
      scope_level := scope_level;
      file_count := file_count;
      warnings := warnings;
      files := files
    |}.

End Runtime.
End ScopeValidator.

(** ** integration_specialist_tool.py: its own copy of the exception, the
    marker list and the two functions *)

Module IntegrationSpecialistTool.

(** The exception: its message and its two attributes. *)
Record ScopeViolationError := {
  exc_message : pystr;
  exc_file_count : nat;
  exc_max_allowed : nat
}.

Definition INFRASTRUCTURE_FILES : list pystr :=
  [ py "Dockerfile";
    py "docker-compose.yml";
    py "docker-compose.yaml";
    py "nginx.conf";
    py ".k8s/";
    py "kubernetes/";
    py "terraform/";
    py ".tf";
    py ".github/workflows/";
    py "Jenkinsfile";
    py ".circleci/" ].

Section Runtime.
Variable to_lower_full : pystr -> nat -> N -> pystr.
Variable set_iter : gset pystr -> list pystr.

Definition detect_anti_patterns (files : list pystr) (description : pystr) : list pystr :=
  let warnings : list pystr := [] in
  (* Check 1 *)
  let desc_lower := lower to_lower_full description in
  let warnings :=
    if existsb (fun keyword => contains keyword desc_lower)
         [py "ui"; py "css"; py "style"; py "button"; py "layout"]
    then
      let infra_found :=
        List.filter (fun f => existsb (fun infra => contains infra f) INFRASTRUCTURE_FILES) files in
      match infra_found with
      | _ :: _ =>
          warnings ++
          [ warning_sign ++ py " ANTI-PATTERN: Infrastructure files modified for UI issue!" ++ nl ++
            py "   Files: " ++ join (py ", ") infra_found ++ nl ++
            py "   Recommendation: Keep infrastructure changes separate from UI fixes" ]
      | [] => warnings
      end
    else warnings in
  (* Check 2 *)
  let top_dirs : gset pystr :=
    foldl (fun top_dirs f =>
             let parts := split slash f in
             match parts with
             | part0 :: _ :: _ => {[ part0 ]} ∪ top_dirs
             | _ => top_dirs
             end) ∅ files in
  let warnings :=
    if (3 <? size top_dirs)%nat then
      warnings ++
      [ warning_sign ++ py " ANTI-PATTERN: Changes span " ++ str_of_nat (size top_dirs) ++
        py " unrelated modules: " ++ join (py ", ") (sorted set_iter top_dirs) ++ nl ++
        py "   Recommendation: Split into focused changes per module" ]
    else warnings in
  (* Check 3 *)
  let complexity_keywords :=
    [py "factory"; py "manager"; py "handler"; py "builder"; py "strategy"; py "adapter"] in
  let simple_fix_keywords := [py "fix"; py "bug"; py "typo"; py "minor"] in
  let desc_has_complexity := existsb (fun kw => contains kw desc_lower) complexity_keywords in
  let desc_is_simple := existsb (fun kw => contains kw desc_lower) simple_fix_keywords in
  let warnings :=
    if desc_has_complexity && desc_is_simple then
      warnings ++
      [ warning_sign ++ py " ANTI-PATTERN: Complex abstractions (" ++
        repr_list (List.filter (fun kw => contains kw desc_lower) complexity_keywords) ++
        py ") for simple fix" ++ nl ++
        py "   Recommendation: Use simplest solution that works" ]
    else warnings in
  warnings.

Definition _analyze_scope_impl (files : list pystr) (description : pystr)
  : result ScopeViolationError ScopeDecision :=
  let file_count := length files in
  if (10 <? file_count)%nat then
    Raised {|
      exc_message :=
        py "Scope limit exceeded: " ++ str_of_nat file_count ++ py " files requested (max: 10)" ++ nl ++
        py "Recommendation: Break this change into smaller, focused tasks" ++ nl ++
        py "Files: " ++ join (py ", ") (take 5 files) ++
        (if (5 <? length files)%nat then py "..." else []);
      exc_file_count := file_count;
      exc_max_allowed := 10
    |}
  else
    let '(scope_level, scope_message) :=
      if (file_count <=? 3)%nat then
        (py "LOCAL", check_mark ++ py " Local scope - auto-approved")
      else if (file_count <=? 5)%nat then
        (py "MODERATE", warning_sign ++ py " Moderate scope - approved with caution")
      else
        (py "EXTENSIVE", warning_sign ++ py " Extensive scope - approaching limit (max 10 files)") in
    let warnings := detect_anti_patterns files description in
    let warnings :=
      if bool_decide (scope_level ∈ [py "MODERATE"; py "EXTENSIVE"])
      then scope_message :: warnings
      else warnings in
    Returned {|
      approved := true;
      scope_level := scope_level;
      file_count := file_count;
      warnings := warnings;
      files := files
    |}.

End Runtime.
End IntegrationSpecialistTool.

(** ** The command-line front ends

    A script writes on two streams, raises and catches exceptions, and ends
    with [sys.exit(code)].  A write on standard output may raise: with a
    strict encoding the stream refuses a string that holds a lone surrogate,
    such as [sys.argv] has for a file name that is not valid UTF-8.  Whether
    a write raises is the runtime's to say, from what the stream holds so
    far and the text: [stdout_fault] gives the [str] of the exception
    raised, a subclass of [Exception], or nothing when the text is written.
    Two things are taken from the runtime as they are by default: standard
    error accepts every string (its error handler is [backslashreplace],
    whatever the environment asks for), and what a write has accepted
    reaches the stream (flushing at exit raises nothing). *)

Record streams := {
  stdout : pystr;
  stderr : pystr
}.

(** What ends a computation of a script early: [SystemExit], which no
    [except] clause of the scripts catches, the scope violation of the
    analysis, or another exception, of which the scripts use the [str]. *)
Inductive raised (E : Type) : Type :=
  | SystemExit (code : nat)
  | ScopeViolation (e : E)
  | OtherException (text : pystr).
Arguments SystemExit {E} code.
Arguments ScopeViolation {E} e.
Arguments OtherException {E} text.

Definition script (E A : Type) : Type := streams -> result (raised E) A * streams.

#[global] Instance script_ret {E : Type} : MRet (script E) :=
  fun A (a : A) st => (Returned a, st).

#[global] Instance script_bind {E : Type} : MBind (script E) :=
  fun A B (k : A -> script E B) (m : script E A) st =>
    match m st with
    | (Returned a, st') => k a st'
    | (Raised r, st') => (Raised r, st')
    end.

(** [sys.exit(code)]. *)
Definition sys_exit {E A : Type} (code : nat) : script E A :=
  fun st => (Raised (SystemExit code), st).

(** A call of the analysis from a script: its exception is raised in the
    script. *)
Definition call {E A : Type} (r : result E A) : script E A :=
  fun st =>
    match r with
    | Returned a => (Returned a, st)
    | Raised e => (Raised (ScopeViolation e), st)
    end.

(** [try: body / except ScopeViolationError as e: ... / except Exception as
    e: ...].  A value and [SystemExit] pass; an exception raised by a handler
    is not caught by the other. *)
Definition try_except {E A : Type} (body : script E A)
    (on_scope_violation : E -> script E A) (on_exception : pystr -> script E A)
  : script E A :=
  fun st =>
    match body st with
    | (Raised (ScopeViolation e), st') => on_scope_violation e st'
    | (Raised (OtherException text), st') => on_exception text st'
    | other => other
    end.

(** [sys.stderr.write(s)] and [print(s, file=sys.stderr)]. *)
Definition eprint {E : Type} (s : pystr) : script E unit :=
  fun st => (Returned tt, {| stdout := stdout st; stderr := stderr st ++ s ++ nl |}).

Section Stdout.
Variable stdout_fault : pystr -> pystr -> option pystr.

(** [sys.stdout.write(s)]. *)
Definition write {E : Type} (s : pystr) : script E unit :=
  fun st =>
    match stdout_fault (stdout st) s with
    | Some text => (Raised (OtherException text), st)
    | None => (Returned tt, {| stdout := stdout st ++ s; stderr := stderr st |})
    end.

(** [print(s)]: the string, then the newline. *)
Definition print {E : Type} (s : pystr) : script E unit :=
  write s ;; write nl.
End Stdout.

(** [for x in l: body(x)]. *)
Fixpoint for_each {E A : Type} (l : list A) (body : A -> script E unit) : script E unit :=
  match l with
  | [] => mret tt
  | x :: l' => body x ;; for_each l' body
  end.

(** [l.index(x)]: the first position of [x], or no position ([ValueError]). *)
Fixpoint index (x : pystr) (l : list pystr) : option nat :=
  match l with
  | [] => None
  | y :: l' => if decide (y = x) then Some 0%nat else S <$> index x l'
  end.

(** What the operating system sees of a run that starts with empty streams:
    the exit code and what was written.  The code is that of [sys.exit], 0
    when the script ends without it, and 1 when an exception is left
    uncaught (the traceback that the interpreter then writes is not
    modelled; the scripts leave none uncaught). *)
Record process := {
  exit_code : nat;
  written : streams
}.

Definition run {E : Type} (m : script E unit) : process :=
  match m {| stdout := []; stderr := [] |} with
  | (Raised (SystemExit code), st) => {| exit_code := code; written := st |}
  | (Returned _, st) => {| exit_code := 0; written := st |}
  | (Raised _, st) => {| exit_code := 1; written := st |}
  end.

Definition dquote : pystr := [34]%N.
Definition no_entry_sign : pystr := [128683]%N.
Definition cross_mark : pystr := [10060]%N.
(** ['=' * 80]. *)
Definition rule80 : pystr := replicate 80 61%N.

(** *** check_scope_standalone.py *)

Module CheckScopeStandalone.
Section Runtime.
Variable to_lower_full : pystr -> nat -> N -> pystr.
Variable set_iter : gset pystr -> list pystr.
Variable stdout_fault : pystr -> pystr -> option pystr.

Abbreviation print := (print stdout_fault).

(** [main()], with [sys.argv] as its argument. *)
Definition main (argv : list pystr) : script ScopeValidator.ScopeViolationError unit :=
  (if (length argv <? 3)%nat then
     eprint (py "Usage: check_scope_standalone.py <file1> <file2> ... -- " ++
             dquote ++ py "description" ++ dquote) ;;
     eprint (nl ++ py "Example:") ;;
     eprint (py "  check_scope_standalone.py src/a.css src/b.css -- " ++
             dquote ++ py "Fix CSS" ++ dquote) ;;
     sys_exit 2
   else mret tt) ;;
  let '(files, description) :=
    match index (py "--") argv with
    | Some separator_idx =>
        (drop 1 (take separator_idx argv),
         join (py " ") (drop (separator_idx + 1) argv))
    | None =>
        (drop 1 (take (length argv - 1) argv), default [] (last argv))
    end in
  (match files with
   | [] => eprint (py "Error: No files specified") ;; sys_exit 2
   | _ :: _ => mret tt
   end) ;;
  (match description with
   | [] => eprint (py "Error: No description provided") ;; sys_exit 2
   | _ :: _ => mret tt
   end) ;;
  try_except
    (result ← call (ScopeValidator.analyze_scope to_lower_full set_iter files description);
     print (nl ++ rule80) ;;
     print (py "SCOPE ANALYSIS") ;;
     print rule80 ;;
     print (py "Status: " ++ check_mark ++ py " APPROVED") ;;
     print (py "Scope Level: " ++ scope_level result) ;;
     print (py "File Count: " ++ str_of_nat (file_count result) ++ py "/" ++ str_of_nat 10) ;;
     (match warnings result with
      | _ :: _ =>
          print (nl ++ warning_sign ++ py "  WARNINGS:") ;;
          for_each (warnings result) (fun warning => print (py "  " ++ warning))
      | [] =>
          print (nl ++ check_mark ++ py " No warnings detected")
      end) ;;
     print (rule80 ++ nl) ;;
     sys_exit 0)
    (fun e =>
       eprint (nl ++ rule80) ;;
       eprint (no_entry_sign ++ py " SCOPE VIOLATION - BLOCKED") ;;
       eprint rule80 ;;
       eprint (nl ++ ScopeValidator.exc_message e ++ nl) ;;
       eprint (py "File count: " ++ str_of_nat (ScopeValidator.exc_file_count e)) ;;
       eprint (py "Max allowed: " ++ str_of_nat (ScopeValidator.exc_max_allowed e)) ;;
       eprint (rule80 ++ nl) ;;
       sys_exit 1)
    (fun e =>
       eprint (nl ++ cross_mark ++ py " ERROR: " ++ e ++ nl) ;;
       sys_exit 2).

End Runtime.
End CheckScopeStandalone.

(** *** check_scope.py: the same script over [analyze_integration_scope_sync],
    which is [_analyze_scope_impl] under another name *)

Module CheckScope.
Section Runtime.
Variable to_lower_full : pystr -> nat -> N -> pystr.
Variable set_iter : gset pystr -> list pystr.
Variable stdout_fault : pystr -> pystr -> option pystr.

Abbreviation print := (print stdout_fault).

Definition analyze_integration_scope_sync :=
  IntegrationSpecialistTool._analyze_scope_impl to_lower_full set_iter.

Definition main (argv : list pystr)
  : script IntegrationSpecialistTool.ScopeViolationError unit :=
  (if (length argv <? 3)%nat then
     eprint (py "Usage: check_scope.py <file1> <file2> ... -- " ++
             dquote ++ py "description" ++ dquote) ;;
     eprint (nl ++ py "Example:") ;;
     eprint (py "  check_scope.py src/a.css src/b.css -- " ++
             dquote ++ py "Fix CSS" ++ dquote) ;;
     sys_exit 2
   else mret tt) ;;
  let '(files, description) :=
    match index (py "--") argv with
    | Some separator_idx =>
        (drop 1 (take separator_idx argv),
         join (py " ") (drop (separator_idx + 1) argv))
    | None =>
        (drop 1 (take (length argv - 1) argv), default [] (last argv))
    end in
  (match files with
   | [] => eprint (py "Error: No files specified") ;; sys_exit 2
   | _ :: _ => mret tt
   end) ;;
  (match description with
   | [] => eprint (py "Error: No description provided") ;; sys_exit 2
   | _ :: _ => mret tt
   end) ;;
  try_except
    (result ← call (analyze_integration_scope_sync files description);
     print (nl ++ rule80) ;;
     print (py "SCOPE ANALYSIS") ;;
     print rule80 ;;
     print (py "Status: " ++ check_mark ++ py " APPROVED") ;;
     print (py "Scope Level: " ++ scope_level result) ;;
     print (py "File Count: " ++ str_of_nat (file_count result) ++ py "/" ++ str_of_nat 10) ;;
     (match warnings result with
      | _ :: _ =>
          print (nl ++ warning_sign ++ py "  WARNINGS:") ;;
          for_each (warnings result) (fun warning => print (py "  " ++ warning))
      | [] =>
          print (nl ++ check_mark ++ py " No warnings detected")
      end) ;;
     print (rule80 ++ nl) ;;
     sys_exit 0)
    (fun e =>
       eprint (nl ++ rule80) ;;
       eprint (no_entry_sign ++ py " SCOPE VIOLATION - BLOCKED") ;;
       eprint rule80 ;;
       eprint (nl ++ IntegrationSpecialistTool.exc_message e ++ nl) ;;
       eprint (py "File count: " ++ str_of_nat (IntegrationSpecialistTool.exc_file_count e)) ;;
       eprint (py "Max allowed: " ++ str_of_nat (IntegrationSpecialistTool.exc_max_allowed e)) ;;
       eprint (rule80 ++ nl) ;;
       sys_exit 1)
    (fun e =>
       eprint (nl ++ cross_mark ++ py " ERROR: " ++ e ++ nl) ;;
       sys_exit 2).

End Runtime.
End CheckScope.

(** ** integration_specialist_tool.py: the tool handler

    [analyze_integration_scope] is the coroutine that the decorator registers
    as the handler of the tool; it awaits nothing, so a call runs it to its
    end.  Its argument is a dict shaped by the declared schema: ["files"] a
    list of strings and ["description"] a string, either of which may be
    absent.  It returns a dict with some of the keys ["content"],
    ["result"], ["is_error"], ["error"]. *)

Module SdkTool.

Record tool_args := {
  arg_files : option (list pystr);
  arg_description : option pystr
}.

(** [{"type": ..., "text": ...}]. *)
Record text_block := {
  block_type : pystr;
  block_text : pystr
}.

(** [{"type": ..., "file_count": ..., "max_allowed": ...}]. *)
Record error_info := {
  error_type : pystr;
  error_file_count : nat;
  error_max_allowed : nat
}.

(** The dict returned; [None] for a key that is not there. *)
Record tool_response := {
  content : list text_block;
  response_result : option ScopeDecision;
  is_error : option bool;
  error : option error_info
}.

(** [KeyError(key)], from [args[key]]. *)
Inductive KeyError : Type :=
  | MissingKey (key : pystr).

(** [str(b)] for a bool. *)
Definition str_of_bool (b : bool) : pystr := if b then py "True" else py "False".

Section Runtime.
Variable to_lower_full : pystr -> nat -> N -> pystr.
Variable set_iter : gset pystr -> list pystr.

Definition analyze_integration_scope (args : tool_args) : result KeyError tool_response :=
  match arg_files args with
  | None => Raised (MissingKey (py "files"))
  | Some files =>
  match arg_description args with
  | None => Raised (MissingKey (py "description"))
  | Some description =>
  match IntegrationSpecialistTool._analyze_scope_impl to_lower_full set_iter
          files description with
  | Returned result =>
      Returned {|
        content :=
          [ {| block_type := py "text";
               block_text :=
                 py "Scope analysis complete:" ++ nl ++
                 py "  - Approved: " ++ str_of_bool (approved result) ++ nl ++
                 py "  - Scope Level: " ++ scope_level result ++ nl ++
                 py "  - File Count: " ++ str_of_nat (file_count result) ++ nl ++
                 (match warnings result with
                  | _ :: _ =>
                      nl ++ py "  - Warnings:" ++ nl ++ py "    " ++
                      join (nl ++ py "    ") (warnings result)
                  | [] => []
                  end) |} ];
        response_result := Some result;
        is_error := None;
        error := None
      |}
  | Raised e =>
      Returned {|
        content :=
          [ {| block_type := py "text";
               block_text :=
                 no_entry_sign ++ py " SCOPE VIOLATION BLOCKED" ++ nl ++ nl ++
                 IntegrationSpecialistTool.exc_message e |} ];
        response_result := None;
        is_error := Some true;
        error :=
          Some {| error_type := py "ScopeViolationError";
                  error_file_count := IntegrationSpecialistTool.exc_file_count e;
                  error_max_allowed := IntegrationSpecialistTool.exc_max_allowed e |}
      |}
  end
  end
  end.

End Runtime.
End SdkTool.

(** * The vocabulary of the specification *)

(** [sub] occurs in [s]. *)
Definition substring (sub s : pystr) : Prop := ∃ a b, s = a ++ sub ++ b.

(** [m] is the first segment of the path [f], and [f] has a separator. *)
Definition module_token (f m : pystr) : Prop :=
  ∃ rest, f = m ++ slash :: rest ∧ slash ∉ m.

(** The lexicographic order on strings: [a] comes before [b] or equals it
    when [a] is a prefix of [b], or at the first position where they differ
    [a] has the smaller code point. *)
Definition lex_le (a b : pystr) : Prop :=
  a `prefix_of` b ∨
  ∃ p x y a' b', a = p ++ x :: a' ∧ b = p ++ y :: b' ∧ (x < y)%N.

(** The keyword sets and the messages, as the checks are described. *)
Definition ui_keywords : list pystr :=
  [py "ui"; py "css"; py "style"; py "button"; py "layout"].
Definition complexity_keywords : list pystr :=
  [py "factory"; py "manager"; py "handler"; py "builder"; py "strategy"; py "adapter"].
Definition simple_fix_keywords : list pystr :=
  [py "fix"; py "bug"; py "typo"; py "minor"].

Definition infra_ui_header : pystr :=
  warning_sign ++ py " ANTI-PATTERN: Infrastructure files modified for UI issue!".
Definition cross_module_header : pystr :=
  warning_sign ++ py " ANTI-PATTERN: Changes span ".
Definition complexity_header : pystr :=
  warning_sign ++ py " ANTI-PATTERN: Complex abstractions (".

Definition infra_ui_warning (named : list pystr) : pystr :=
  infra_ui_header ++ nl ++ py "   Files: " ++ join (py ", ") named ++ nl ++
  py "   Recommendation: Keep infrastructure changes separate from UI fixes".
Definition cross_module_warning (n : nat) (listed : list pystr) : pystr :=
  cross_module_header ++ str_of_nat n ++ py " unrelated modules: " ++
  join (py ", ") listed ++ nl ++
  py "   Recommendation: Split into focused changes per module".
Definition complexity_warning (named : list pystr) : pystr :=
  complexity_header ++ repr_list named ++ py ") for simple fix" ++ nl ++
  py "   Recommendation: Use simplest solution that works".

Definition moderate_advisory : pystr :=
  warning_sign ++ py " Moderate scope - approved with caution".
Definition extensive_advisory : pystr :=
  warning_sign ++ py " Extensive scope - approaching limit (max 10 files)".

(** A warning is recognised by the way it begins. *)
Definition is_infra_ui_warning (w : pystr) : Prop := infra_ui_header `prefix_of` w.
Definition is_cross_module_warning (w : pystr) : Prop := cross_module_header `prefix_of` w.
Definition is_complexity_warning (w : pystr) : Prop := complexity_header `prefix_of` w.

(** The path [f] holds one of the infrastructure markers. *)
Definition names_infrastructure (f : pystr) : Prop :=
  ∃ marker, marker ∈ ScopeValidator.INFRASTRUCTURE_FILES ∧ substring marker f.

(** Some keyword of [kws] occurs in [s]. *)
Definition mentions (kws : list pystr) (s : pystr) : Prop :=
  ∃ kw, kw ∈ kws ∧ substring kw s.

(** [T] is the set of the top-level modules of [files]. *)
Definition modules_of (files : list pystr) (T : gset pystr) : Prop :=
  ∀ m, m ∈ T ↔ ∃ f, f ∈ files ∧ module_token f m.

(** The set that the loop of check 2 builds ([top_dirs], lines 69 to 73 of
    [scope_validator.py]), named so that the lemmas can speak of it. *)
Definition top_dirs_of (files : list pystr) : gset pystr :=
  foldl (fun top_dirs f =>
           match split slash f with
           | part0 :: _ :: _ => {[ part0 ]} ∪ top_dirs
           | _ => top_dirs
           end) ∅ files.

(** The conditions under which check 1 and check 3 apply. *)
Definition infra_ui_applies (to_lower_full : pystr -> nat -> N -> pystr)
    (files : list pystr) (description : pystr) : Prop :=
  mentions ui_keywords (lower to_lower_full description) ∧
  ∃ f, f ∈ files ∧ names_infrastructure f.
Definition complexity_applies (to_lower_full : pystr -> nat -> N -> pystr)
    (description : pystr) : Prop :=
  mentions complexity_keywords (lower to_lower_full description) ∧
  mentions simple_fix_keywords (lower to_lower_full description).

(** The outcomes of the two functions agree: both return, and the same
    dict, or both raise, and exceptions with the same attributes and
    message. *)
Definition same_outcome
    (r1 : result ScopeValidator.ScopeViolationError ScopeDecision)
    (r2 : result IntegrationSpecialistTool.ScopeViolationError ScopeDecision) : Prop :=
  match r1, r2 with
  | Returned d1, Returned d2 => d1 = d2
  | Raised e1, Raised e2 =>
      ScopeValidator.exc_file_count e1 = IntegrationSpecialistTool.exc_file_count e2 ∧
      ScopeValidator.exc_max_allowed e1 = IntegrationSpecialistTool.exc_max_allowed e2 ∧
      ScopeValidator.exc_message e1 = IntegrationSpecialistTool.exc_message e2
  | _, _ => False
  end.

(** A case mapping to evaluate the functions with: it leaves the code
    points outside ASCII as they are. *)
Definition plain_lower : pystr -> nat -> N -> pystr := fun _ _ c => [c].

(** Inputs on which the theorems below are tried. *)
Definition echo_files : list pystr := [py "src/b.css"; py "src/a.css"; py "src/b.css"].
Definition echo_decision : ScopeDecision :=
  {| approved := true;
     scope_level := py "LOCAL";
     file_count := 3;
     warnings := [];
     files := echo_files |}.

(** Six files over four modules, one of them infrastructure, for a
    description that names a button, a fix and a factory: the advisory and
    all three warnings, in this order. *)
Definition busy_files : list pystr :=
  [py "web/Button.css"; py "ops/Dockerfile"; py "api/routes.py"; py "db/schema.sql";
   py "web/Header.css"; py "notes.txt"].
Definition busy_description : pystr := py "Fix Button with a Factory".
Definition busy_decision : ScopeDecision :=
  {| approved := true;
     scope_level := py "EXTENSIVE";
     file_count := 6;
     warnings :=
       [ extensive_advisory;
         infra_ui_warning [py "ops/Dockerfile"];
         cross_module_warning 4 [py "api"; py "db"; py "ops"; py "web"];
         complexity_warning [py "factory"] ];
     files := busy_files |}.

Definition spread_files : list pystr :=
  [py "d/x"; py "b/x"; py "a/x"; py "c/x"; py "Dockerfile"].

(** Eleven files, and the exception they get. *)
Definition eleven_files : list pystr :=
  [py "f1"; py "f2"; py "f3"; py "f4"; py "f5"; py "f6"; py "f7"; py "f8"; py "f9";
   py "f10"; py "f11"].
Definition eleven_error : ScopeValidator.ScopeViolationError :=
  {| ScopeValidator.exc_message :=
       py "Scope limit exceeded: 11 files requested (max: 10)" ++ nl ++
       py "Recommendation: Break this change into smaller, focused tasks" ++ nl ++
       py "Files: f1, f2, f3, f4, f5...";
     ScopeValidator.exc_file_count := 11;
     ScopeValidator.exc_max_allowed := 10 |}.

(** What a front end writes for a decision, and for a violation with the
    given message and attributes. *)
Definition report_approved (d : ScopeDecision) : pystr :=
  nl ++ rule80 ++ nl ++
  py "SCOPE ANALYSIS" ++ nl ++
  rule80 ++ nl ++
  py "Status: " ++ check_mark ++ py " APPROVED" ++ nl ++
  py "Scope Level: " ++ scope_level d ++ nl ++
  py "File Count: " ++ str_of_nat (file_count d) ++ py "/" ++ str_of_nat 10 ++ nl ++
  (match warnings d with
   | [] => nl ++ check_mark ++ py " No warnings detected" ++ nl
   | ws => nl ++ warning_sign ++ py "  WARNINGS:" ++ nl ++
           concat ((fun w => (py "  " ++ w) ++ nl) <$> ws)
   end) ++
  rule80 ++ nl ++ nl.

Definition report_blocked (message : pystr) (count max : nat) : pystr :=
  nl ++ rule80 ++ nl ++
  no_entry_sign ++ py " SCOPE VIOLATION - BLOCKED" ++ nl ++
  rule80 ++ nl ++
  nl ++ message ++ nl ++ nl ++
  py "File count: " ++ str_of_nat count ++ nl ++
  py "Max allowed: " ++ str_of_nat max ++ nl ++
  rule80 ++ nl ++ nl.

(** The files and the description that a front end takes from [sys.argv]
    (lines 32 to 39 of the two scripts), named so that the lemmas can speak
    of them. *)
Definition cli_files (argv : list pystr) : list pystr :=
  match index (py "--") argv with
  | Some separator_idx => drop 1 (take separator_idx argv)
  | None => drop 1 (take (length argv - 1) argv)
  end.
Definition cli_description (argv : list pystr) : pystr :=
  match index (py "--") argv with
  | Some separator_idx => join (py " ") (drop (separator_idx + 1) argv)
  | None => default [] (last argv)
  end.

(** The lines that a front end prints for a decision, and the writes that
    printing lines makes: each line, then the newline. *)
Definition report_lines (d : ScopeDecision) : list pystr :=
  [ nl ++ rule80;
    py "SCOPE ANALYSIS";
    rule80;
    py "Status: " ++ check_mark ++ py " APPROVED";
    py "Scope Level: " ++ scope_level d;
    py "File Count: " ++ str_of_nat (file_count d) ++ py "/" ++ str_of_nat 10 ] ++
  (match warnings d with
   | [] => [nl ++ check_mark ++ py " No warnings detected"]
   | ws => (nl ++ warning_sign ++ py "  WARNINGS:") :: ((fun w => py "  " ++ w) <$> ws)
   end) ++
  [rule80 ++ nl].

Definition print_chunks (lines : list pystr) : list pystr :=
  concat ((fun line => [line; nl]) <$> lines).

(** Writing the chunks in turn on a stream that holds [out], up to the
    first one refused: what the stream holds in the end, and the text of the
    exception when a chunk was refused. *)
Fixpoint write_all (stdout_fault : pystr -> pystr -> option pystr)
    (out : pystr) (chunks : list pystr) : pystr * option pystr :=
  match chunks with
  | [] => (out, None)
  | chunk :: chunks' =>
      match stdout_fault out chunk with
      | Some text => (out, Some text)
      | None => write_all stdout_fault (out ++ chunk) chunks'
      end
  end.

(** The process of a front end that has analysed: for a decision it prints
    the report and exits with 0, unless standard output refuses a chunk,
    when it says so on standard error and exits with 2; for a violation it
    reports on standard error and exits with 1. *)
Definition reported (stdout_fault : pystr -> pystr -> option pystr)
    (r : result ScopeValidator.ScopeViolationError ScopeDecision) : process :=
  match r with
  | Returned d =>
      match write_all stdout_fault [] (print_chunks (report_lines d)) with
      | (out, None) =>
          {| exit_code := 0; written := {| stdout := out; stderr := [] |} |}
      | (out, Some text) =>
          {| exit_code := 2;
             written :=
               {| stdout := out;
                  stderr := nl ++ cross_mark ++ py " ERROR: " ++ text ++ nl ++ nl |} |}
      end
  | Raised e =>
      {| exit_code := 1;
         written :=
           {| stdout := [];
              stderr := report_blocked (ScopeValidator.exc_message e)
                          (ScopeValidator.exc_file_count e)
                          (ScopeValidator.exc_max_allowed e) |} |}
  end.

(** The script [k] after the writes of [chunks], which stop at the first
    one refused. *)
Definition after_writes {E A : Type} (stdout_fault : pystr -> pystr -> option pystr)
    (chunks : list pystr) (k : script E A) : script E A :=
  fun st =>
    match write_all stdout_fault (stdout st) chunks with
    | (out, None) => k {| stdout := out; stderr := stderr st |}
    | (out, Some text) =>
        (Raised (OtherException text), {| stdout := out; stderr := stderr st |})
    end.

(** A standard output that refuses nothing, and one with the strict UTF-8
    encoding, which refuses a string with a surrogate code point: the text is
    that of [UnicodeEncodeError], with the position of the first run of
    surrogates. *)
Definition accepts_all : pystr -> pystr -> option pystr := fun _ _ => None.

Definition is_surrogate (c : N) : bool := (55296 <=? c)%N && (c <=? 57343)%N.

Definition hex_digit (n : N) : N := if (n <? 10)%N then (48 + n)%N else (87 + n)%N.

Definition hex4 (c : N) : pystr :=
  [ hex_digit (c / 4096 mod 16); hex_digit (c / 256 mod 16);
    hex_digit (c / 16 mod 16); hex_digit (c mod 16) ]%N.

Fixpoint leading_surrogates (s : pystr) : pystr :=
  match s with
  | [] => []
  | c :: s' => if is_surrogate c then c :: leading_surrogates s' else []
  end.

Fixpoint first_surrogates (i : nat) (s : pystr) : option (nat * pystr) :=
  match s with
  | [] => None
  | c :: s' =>
      if is_surrogate c then Some (i, c :: leading_surrogates s')
      else first_surrogates (S i) s'
  end.

Definition strict_utf8_stdout : pystr -> pystr -> option pystr :=
  fun _ s =>
    match first_surrogates 0 s with
    | None => None
    | Some (i, [c]) =>
        Some (py "'utf-8' codec can't encode character '\u" ++ hex4 c ++
              py "' in position " ++ str_of_nat i ++ py ": surrogates not allowed")
    | Some (i, cs) =>
        Some (py "'utf-8' codec can't encode characters in position " ++
              str_of_nat i ++ py "-" ++ str_of_nat (i + length cs - 1) ++
              py ": surrogates not allowed")
    end.

(** What a front end called [name] writes when it has fewer than two
    arguments, and the process that ends on a misuse. *)
Definition usage_text (name : pystr) : pystr :=
  py "Usage: " ++ name ++ py " <file1> <file2> ... -- " ++
  dquote ++ py "description" ++ dquote ++ nl ++
  nl ++ py "Example:" ++ nl ++
  py "  " ++ name ++ py " src/a.css src/b.css -- " ++ dquote ++ py "Fix CSS" ++ dquote ++ nl.

Definition misuse (message : pystr) : process :=
  {| exit_code := 2; written := {| stdout := []; stderr := message |} |}.

(** The path [f] has a separator. *)
Definition has_slash (f : pystr) : Prop := slash ∈ f.

(** * Facts about the string operations *)

Lemma startswith_spec (p s : pystr) :
  startswith p s = true ↔ ∃ k, s = p ++ k.
Proof.
  revert s. induction p as [|a p IH]; intros s; simpl.
  - split; [intros _; by exists s | done].
  - destruct s as [|b s].
    + split; [done | intros [k Hk]; discriminate].
    + rewrite andb_true_iff, N.eqb_eq, IH. split.
      * intros [-> [k ->]]. by exists k.
      * intros [k Hk]. injection Hk as -> ->. eauto.
Qed.

Lemma contains_spec (sub s : pystr) :
  contains sub s = true ↔ substring sub s.
Proof.
  unfold substring. induction s as [|c s IH]; simpl.
  - rewrite orb_false_r, startswith_spec. split.
    + intros [k Hk]. by exists [], k.
    + intros (a & b & Hab). symmetry in Hab.
      apply app_eq_nil in Hab as [-> Hab]. apply app_eq_nil in Hab as [-> ->].
      by exists [].
  - rewrite orb_true_iff, startswith_spec, IH. split.
    + intros [[k Hk] | (a & b & ->)].
      * by exists [], k.
      * by exists (c :: a), b.
    + intros ([|x a] & b & Hab).
      * left. by exists b.
      * right. injection Hab as -> ->. by exists a, b.
Qed.

#[global] Instance substring_dec (sub s : pystr) : Decision (substring sub s).
Proof.
  refine (cast_if (decide (contains sub s = true))); by rewrite <- contains_spec.
Defined.

Lemma existsb_contains (kws : list pystr) (s : pystr) :
  existsb (fun kw => contains kw s) kws = true ↔ ∃ kw, kw ∈ kws ∧ substring kw s.
Proof.
  rewrite existsb_exists. setoid_rewrite contains_spec.
  by setoid_rewrite list_elem_of_In.
Qed.

(** [split]: the segments hold no separator and joined by it give the
    string back. *)
Lemma split_nonempty (sep : N) (s : pystr) : split sep s ≠ [].
Proof.
  destruct s as [|c s]; simpl; [done|].
  destruct (c =? sep)%N; [done|]. by destruct (split sep s).
Qed.

Lemma split_join (sep : N) (s : pystr) : join [sep] (split sep s) = s.
Proof.
  induction s as [|c s IH]; simpl; [done|].
  destruct (c =? sep)%N eqn:E.
  - apply N.eqb_eq in E as ->.
    pose proof (split_nonempty sep s).
    destruct (split sep s) as [|seg segs]; [done|]. simpl in *. by rewrite IH.
  - pose proof (split_nonempty sep s).
    destruct (split sep s) as [|seg segs]; [done|].
    destruct segs; simpl in *; by rewrite <- IH.
Qed.

Lemma split_segments (sep : N) (s : pystr) :
  Forall (fun seg => sep ∉ seg) (split sep s).
Proof.
  induction s as [|c s IH]; simpl.
  - repeat constructor. by intros ?%elem_of_nil.
  - destruct (c =? sep)%N eqn:E.
    + constructor; [by intros ?%elem_of_nil | done].
    + apply N.eqb_neq in E.
      destruct (split sep s) as [|seg segs].
      * repeat constructor. rewrite list_elem_of_singleton. congruence.
      * apply Forall_cons in IH as [Hseg Hsegs]. constructor; [|done].
        rewrite elem_of_cons. intros [?|?]; congruence.
Qed.

Lemma split_no_sep (sep : N) (s : pystr) : sep ∉ s → split sep s = [s].
Proof.
  induction s as [|c s IH]; simpl; [done|]. intros Hs.
  destruct (c =? sep)%N eqn:E.
  - apply N.eqb_eq in E as ->. set_solver.
  - rewrite IH by set_solver. done.
Qed.

Lemma split_first (sep : N) (m rest : pystr) :
  sep ∉ m → split sep (m ++ sep :: rest) = m :: split sep rest.
Proof.
  induction m as [|c m IH]; simpl; intros Hm.
  - by rewrite N.eqb_refl.
  - destruct (c =? sep)%N eqn:E.
    + apply N.eqb_eq in E as ->. set_solver.
    + rewrite IH by set_solver. done.
Qed.

Lemma split_module_token (f : pystr) :
  match split slash f with
  | part0 :: _ :: _ => module_token f part0
  | _ => slash ∉ f
  end.
Proof.
  pose proof (split_join slash f) as Hj.
  pose proof (split_segments slash f) as Hs.
  pose proof (split_nonempty slash f) as Hn.
  destruct (split slash f) as [|p0 [|p1 ps]]; [done| |].
  - simpl in Hj. subst. by inversion Hs.
  - exists (join [slash] (p1 :: ps)). split; [|by inversion Hs].
    by rewrite <- Hj.
Qed.

Lemma module_token_slash (f m : pystr) : module_token f m → slash ∈ f.
Proof. intros (rest & -> & _). set_solver. Qed.

Lemma module_token_unique (f m m' : pystr) :
  module_token f m → module_token f m' → m = m'.
Proof.
  intros (r & -> & Hm) (r' & Heq & Hm').
  pose proof (split_first slash m r Hm) as H1.
  rewrite Heq, (split_first slash m' r' Hm') in H1. congruence.
Qed.

(** The comparison of strings is a total order. *)
Lemma str_leb_total (a b : pystr) : str_leb a b = true ∨ str_leb b a = true.
Proof.
  revert b. induction a as [|x a IH]; intros [|y b]; simpl; auto.
  destruct (N.ltb_spec x y), (N.ltb_spec y x); auto; lia.
Qed.

Lemma str_leb_trans (a b c : pystr) :
  str_leb a b = true → str_leb b c = true → str_leb a c = true.
Proof.
  revert b c. induction a as [|x a IH]; intros [|y b] [|z c]; simpl; try done.
  destruct (N.ltb_spec x y), (N.ltb_spec y x), (N.ltb_spec y z), (N.ltb_spec z y),
    (N.ltb_spec x z), (N.ltb_spec z x); try done; try lia.
  apply IH.
Qed.

Lemma str_leb_antisym (a b : pystr) :
  str_leb a b = true → str_leb b a = true → a = b.
Proof.
  revert b. induction a as [|x a IH]; intros [|y b]; simpl; try done.
  destruct (N.ltb_spec x y), (N.ltb_spec y x); try done; try lia.
  intros. f_equal; [lia | by apply IH].
Qed.

#[global] Instance str_le_total : Total str_le.
Proof. intros a b. apply str_leb_total. Qed.
#[global] Instance str_le_trans : Transitive str_le.
Proof. intros a b c. apply str_leb_trans. Qed.
#[global] Instance str_le_antisym : AntiSymm (=) str_le.
Proof. intros a b. apply str_leb_antisym. Qed.

Lemma str_le_lexicographic (a b : pystr) : str_le a b ↔ lex_le a b.
Proof.
  unfold str_le, lex_le. revert b. induction a as [|x a IH]; intros b; simpl.
  - split; [intros _; left; apply prefix_nil | done].
  - destruct b as [|y b].
    + split; [done|]. intros [H%prefix_nil_not | (p & ? & ? & ? & ? & _ & H & _)]; [done|].
      by destruct p.
    + destruct (N.ltb_spec x y) as [Hxy|Hxy].
      { split; [intros _|done]. right. by exists [], x, y, a, b. }
      destruct (N.ltb_spec y x) as [Hyx|Hyx].
      { split; [done|]. intros [H | (p & x' & y' & a' & b' & Ha & Hb & Hlt)].
        - apply prefix_cons_inv_1 in H. lia.
        - destruct p; simplify_eq/=; lia. }
      assert (x = y) as -> by lia. rewrite IH. split.
      * intros [H | (p & x' & y' & a' & b' & -> & -> & Hlt)].
        -- left. by apply prefix_cons.
        -- right. by exists (y :: p), x', y', a', b'.
      * intros [H | (p & x' & y' & a' & b' & Ha & Hb & Hlt)].
        -- left. by apply prefix_cons_inv_2 in H.
        -- destruct p; simplify_eq/=; [lia|]. right. by exists p, x', y', a', b'.
Qed.

(** Sorting does not depend on the order in which the set yields its
    elements. *)
Lemma merge_sort_str_le_perm (l1 l2 : list pystr) :
  l1 ≡ₚ l2 → merge_sort str_le l1 = merge_sort str_le l2.
Proof.
  intros Hp. apply (StronglySorted_unique str_le).
  - apply StronglySorted_merge_sort; apply _.
  - apply StronglySorted_merge_sort; apply _.
  - by rewrite !merge_sort_Permutation.
Qed.

Lemma sorted_iter_irrelevant (iter1 iter2 : gset pystr → list pystr) (X : gset pystr) :
  iter1 X ≡ₚ elements X → iter2 X ≡ₚ elements X → sorted iter1 X = sorted iter2 X.
Proof. intros H1 H2. apply merge_sort_str_le_perm. by rewrite H1, H2. Qed.

Lemma StronglySorted_lex (l : list pystr) :
  StronglySorted str_le l → StronglySorted lex_le l.
Proof.
  induction 1 as [|a l Hl IH Ha]; constructor; [done|].
  eapply Forall_impl; [exact Ha|]. intros b. apply str_le_lexicographic.
Qed.

Lemma sorted_spec (iter : gset pystr → list pystr) (X : gset pystr) :
  iter X ≡ₚ elements X →
  StronglySorted lex_le (sorted iter X) ∧ NoDup (sorted iter X) ∧
  ∀ m, m ∈ sorted iter X ↔ m ∈ X.
Proof.
  intros Hp. unfold sorted. split; [|split].
  - apply StronglySorted_lex, StronglySorted_merge_sort; apply _.
  - rewrite merge_sort_Permutation, Hp. apply NoDup_elements.
  - intros m. rewrite merge_sort_Permutation, Hp. apply elem_of_elements.
Qed.

(** [str.lower] on a description in which a run of ASCII characters occurs:
    the run comes out with its letters in lower case, whatever surrounds it. *)
Section LowerFacts.
Variable to_lower_full : pystr -> nat -> N -> pystr.

Lemma do_lower_app (data : pystr) (i : nat) (a b : pystr) :
  do_lower to_lower_full data i (a ++ b) =
  do_lower to_lower_full data i a ++ do_lower to_lower_full data (i + length a) b.
Proof.
  revert i. induction a as [|c a IH]; intros i; simpl.
  - by rewrite Nat.add_0_r.
  - rewrite IH, <- app_assoc. do 3 f_equal. lia.
Qed.

Lemma do_lower_ascii (data : pystr) (i : nat) (k : pystr) :
  Forall (fun c => (c < 128)%N) k →
  do_lower to_lower_full data i k = ascii_tolower <$> k.
Proof.
  intros Hk. revert i. induction Hk as [|c k Hc Hk IH]; intros i; simpl; [done|].
  unfold lower_ucs4. apply N.ltb_lt in Hc. by rewrite Hc, IH.
Qed.

Lemma lower_substring (k s : pystr) :
  Forall (fun c => (c < 128)%N) k →
  substring k s → substring (ascii_tolower <$> k) (lower to_lower_full s).
Proof.
  intros Hk (a & b & Hs). unfold lower. rewrite Hs at 2.
  rewrite !do_lower_app, (do_lower_ascii _ _ k Hk). by eexists _, _.
Qed.

Lemma lower_ascii (s : pystr) :
  Forall (fun c => (c < 128)%N) s → lower to_lower_full s = ascii_tolower <$> s.
Proof. apply do_lower_ascii. Qed.
End LowerFacts.

Lemma ascii_tolower_ascii (c : N) : (ascii_tolower c < 128)%N → (c < 128)%N.
Proof.
  unfold ascii_tolower.
  destruct (N.leb_spec 65 c), (N.leb_spec c 90); simpl; lia.
Qed.

Lemma mentions_existsb (kws : list pystr) (s : pystr) :
  existsb (fun kw => contains kw s) kws = true ↔ mentions kws s.
Proof. apply existsb_contains. Qed.

#[global] Instance mentions_dec (kws : list pystr) (s : pystr) : Decision (mentions kws s).
Proof.
  refine (cast_if (decide (existsb (fun kw => contains kw s) kws = true)));
    by rewrite <- mentions_existsb.
Defined.

#[global] Instance names_infrastructure_dec (f : pystr) : Decision (names_infrastructure f).
Proof. apply mentions_dec. Defined.

Lemma filter_bool {A} (P : A → Prop) `{∀ x, Decision (P x)} (b : A → bool) (l : list A) :
  (∀ x, b x = true ↔ P x) → List.filter b l = filter P l.
Proof.
  intros Hb. induction l as [|x l IH]; simpl; [done|].
  rewrite filter_cons. destruct (b x) eqn:E.
  - rewrite decide_True by by apply Hb. by rewrite IH.
  - rewrite decide_False; [done|]. rewrite <- Hb. congruence.
Qed.

Lemma modules_of_unique (files : list pystr) (T T' : gset pystr) :
  modules_of files T → modules_of files T' → T = T'.
Proof. intros H H'. apply set_eq. intros m. by rewrite (H m), (H' m). Qed.

(** * The detector, check by check *)

Lemma top_dirs_fold (files : list pystr) (acc : gset pystr) (m : pystr) :
  m ∈ foldl (fun top_dirs f =>
               match split slash f with
               | part0 :: _ :: _ => {[ part0 ]} ∪ top_dirs
               | _ => top_dirs
               end) acc files
  ↔ m ∈ acc ∨ ∃ f, f ∈ files ∧ module_token f m.
Proof.
  revert acc. induction files as [|f files IH]; intros acc; simpl.
  - split; [auto | intros [?|(f & Hf & _)]; [done | by apply elem_of_nil in Hf]].
  - rewrite IH. pose proof (split_module_token f) as Hf.
    destruct (split slash f) as [|p0 [|p1 ps]].
    + split; [intros [?|(g & ? & ?)]; [auto | right; exists g; split; [by right | done]]|].
      intros [?|(g & [->|?]%elem_of_cons & Hg)]; [auto | | eauto].
      by apply module_token_slash in Hg.
    + split; [intros [?|(g & ? & ?)]; [auto | right; exists g; split; [by right | done]]|].
      intros [?|(g & [->|?]%elem_of_cons & Hg)]; [auto | | eauto].
      by apply module_token_slash in Hg.
    + rewrite elem_of_union, elem_of_singleton. split.
      * intros [[->|?]|(g & ? & ?)]; [right; exists f; split; [by left | done] | auto |].
        right. exists g. split; [by right | done].
      * intros [?|(g & [->|?]%elem_of_cons & Hg)]; [auto | | eauto].
        left. left. eapply module_token_unique; eauto.
Qed.

Lemma top_dirs_of_modules (files : list pystr) : modules_of files (top_dirs_of files).
Proof.
  intros m. unfold top_dirs_of. rewrite top_dirs_fold.
  split; [intros [H|H]; [by apply not_elem_of_empty in H | done] | auto].
Qed.

Section Detector.
Variable to_lower_full : pystr -> nat -> N -> pystr.
Variable set_iter : gset pystr -> list pystr.

Abbreviation detect := (ScopeValidator.detect_anti_patterns to_lower_full set_iter).
Abbreviation low := (lower to_lower_full).

(** The three blocks of the function, one after the other. *)
Lemma detect_blocks (files : list pystr) (description : pystr) :
  detect files description =
    (if existsb (fun kw => contains kw (low description)) ui_keywords
     then match List.filter (fun f => existsb (fun infra => contains infra f)
                                       ScopeValidator.INFRASTRUCTURE_FILES) files with
          | [] => []
          | found => [infra_ui_warning found]
          end
     else []) ++
    (if (3 <? size (top_dirs_of files))%nat
     then [cross_module_warning (size (top_dirs_of files)) (sorted set_iter (top_dirs_of files))]
     else []) ++
    (if existsb (fun kw => contains kw (low description)) complexity_keywords &&
        existsb (fun kw => contains kw (low description)) simple_fix_keywords
     then [complexity_warning
             (List.filter (fun kw => contains kw (low description)) complexity_keywords)]
     else []).
Proof.
  unfold ScopeValidator.detect_anti_patterns. cbv zeta.
  fold ui_keywords complexity_keywords simple_fix_keywords (top_dirs_of files).
  destruct (existsb _ ui_keywords);
    [destruct (List.filter _ files)|];
    destruct (3 <? _)%nat; destruct (existsb _ complexity_keywords && _); reflexivity.
Qed.

Lemma detect_check_by_check (files : list pystr) (description : pystr) :
  ∃ w1 w2 w3,
    detect files description = w1 ++ w2 ++ w3 ∧
    (infra_ui_applies to_lower_full files description ∧
       w1 = [infra_ui_warning (filter names_infrastructure files)]
     ∨ ¬ infra_ui_applies to_lower_full files description ∧ w1 = []) ∧
    ((3 < size (top_dirs_of files))%nat ∧
       w2 = [cross_module_warning (size (top_dirs_of files))
                                  (sorted set_iter (top_dirs_of files))]
     ∨ ¬ (3 < size (top_dirs_of files))%nat ∧ w2 = []) ∧
    (complexity_applies to_lower_full description ∧
       w3 = [complexity_warning
               (filter (fun kw => substring kw (low description)) complexity_keywords)]
     ∨ ¬ complexity_applies to_lower_full description ∧ w3 = []).
Proof.
  rewrite detect_blocks. eexists _, _, _. split; [reflexivity|].
  split; [|split].
  - unfold infra_ui_applies.
    rewrite (filter_bool names_infrastructure _ files)
      by (intros f; apply mentions_existsb).
    destruct (existsb _ ui_keywords) eqn:Hkw.
    + apply mentions_existsb in Hkw.
      destruct (filter names_infrastructure files) as [|f0 found] eqn:Hfound.
      * right. split; [|done]. intros (_ & f & Hf & Hinfra).
        assert (f ∈ filter names_infrastructure files) as Hin
          by (by apply list_elem_of_filter).
        rewrite Hfound in Hin. by apply elem_of_nil in Hin.
      * left. split; [|done]. split; [done|]. exists f0.
        assert (f0 ∈ filter names_infrastructure files) as Hin
          by (rewrite Hfound; left).
        apply list_elem_of_filter in Hin as [? ?]. done.
    + right. split; [|done]. intros [Hm _]. apply mentions_existsb in Hm. congruence.
  - destruct (Nat.ltb_spec 3 (size (top_dirs_of files))); [left | right]; split; (done || lia).
  - unfold complexity_applies.
    rewrite (filter_bool (fun kw => substring kw (low description)) _ complexity_keywords)
      by (intros kw; apply contains_spec).
    destruct (existsb _ complexity_keywords) eqn:Hc; cbn [andb].
    + destruct (existsb _ simple_fix_keywords) eqn:Hs.
      * left. split; [|done]. split; by apply mentions_existsb.
      * right. split; [|done]. intros [_ Hm]. apply mentions_existsb in Hm. congruence.
    + right. split; [|done]. intros [Hm _]. apply mentions_existsb in Hm. congruence.
Qed.
End Detector.

(** The messages begin differently, so each is recognised as what it is. *)
Lemma prefix_startswith (p s : pystr) : p `prefix_of` s ↔ startswith p s = true.
Proof. by rewrite startswith_spec. Qed.

Lemma infra_ui_warning_is (named : list pystr) :
  is_infra_ui_warning (infra_ui_warning named).
Proof. unfold is_infra_ui_warning, infra_ui_warning. by eexists. Qed.

Lemma cross_module_warning_is (n : nat) (listed : list pystr) :
  is_cross_module_warning (cross_module_warning n listed).
Proof. unfold is_cross_module_warning, cross_module_warning. by eexists. Qed.

Lemma complexity_warning_is (named : list pystr) :
  is_complexity_warning (complexity_warning named).
Proof. unfold is_complexity_warning, complexity_warning. by eexists. Qed.

Lemma headers_apart (w : pystr) :
  (is_infra_ui_warning w → ¬ is_cross_module_warning w ∧ ¬ is_complexity_warning w) ∧
  (is_cross_module_warning w → ¬ is_complexity_warning w).
Proof.
  unfold is_infra_ui_warning, is_cross_module_warning, is_complexity_warning.
  split.
  - intros [k ->]. split; rewrite prefix_startswith; by vm_compute.
  - intros [k ->]. rewrite prefix_startswith; by vm_compute.
Qed.

Lemma advisories_apart (w : pystr) :
  w = moderate_advisory ∨ w = extensive_advisory →
  ¬ is_infra_ui_warning w ∧ ¬ is_cross_module_warning w ∧ ¬ is_complexity_warning w.
Proof.
  unfold is_infra_ui_warning, is_cross_module_warning, is_complexity_warning.
  intros [-> | ->]; repeat split; rewrite prefix_startswith; by vm_compute.
Qed.

(** * The classifier *)

Lemma analyze_scope_raises (tl : pystr -> nat -> N -> pystr)
    (iter : gset pystr -> list pystr) (fs : list pystr) (description : pystr) :
  (10 < length fs)%nat →
  ∃ e, ScopeValidator.analyze_scope tl iter fs description = Raised e ∧
       ScopeValidator.exc_file_count e = length fs ∧
       ScopeValidator.exc_max_allowed e = 10%nat.
Proof.
  intros Hn. unfold ScopeValidator.analyze_scope. cbv zeta.
  apply Nat.ltb_lt in Hn. rewrite Hn. by eexists.
Qed.

Lemma analyze_scope_returns (tl : pystr -> nat -> N -> pystr)
    (iter : gset pystr -> list pystr) (fs : list pystr) (description : pystr) :
  (length fs ≤ 10)%nat →
  ∃ lvl adv,
    ScopeValidator.analyze_scope tl iter fs description =
      Returned {| approved := true;
                  scope_level := lvl;
                  file_count := length fs;
                  warnings := adv ++ ScopeValidator.detect_anti_patterns tl iter fs description;
                  files := fs |} ∧
    ((length fs ≤ 3)%nat ∧ lvl = py "LOCAL" ∧ adv = []
     ∨ (4 ≤ length fs ≤ 5)%nat ∧ lvl = py "MODERATE" ∧ adv = [moderate_advisory]
     ∨ (6 ≤ length fs ≤ 10)%nat ∧ lvl = py "EXTENSIVE" ∧ adv = [extensive_advisory]).
Proof.
  intros Hn. unfold ScopeValidator.analyze_scope. cbv zeta.
  destruct (Nat.ltb_spec 10 (length fs)) as [?|_]; [lia|].
  destruct (Nat.leb_spec (length fs) 3).
  { eexists _, []. split; [reflexivity|]. left. done. }
  destruct (Nat.leb_spec (length fs) 5).
  { eexists _, [_]. split; [reflexivity|]. right. left. split; [lia|done]. }
  eexists _, [_]. split; [reflexivity|]. right. right. split; [lia|done].
Qed.

(** C1: [analyze_scope] raises the violation, with [file_count] the number
    of files and [max_allowed] 10, exactly when there are more than 10
    files; with at most 10 it returns a decision whose [approved] is true;
    with more than 10 it returns no decision. *)
Theorem analyze_scope_violation_iff (tl : pystr -> nat -> N -> pystr)
    (iter : gset pystr -> list pystr) (fs : list pystr) (description : pystr) :
  ((∃ e, ScopeValidator.analyze_scope tl iter fs description = Raised e ∧
         ScopeValidator.exc_file_count e = length fs ∧
         ScopeValidator.exc_max_allowed e = 10%nat)
   ↔ (10 < length fs)%nat) ∧
  ((∃ d, ScopeValidator.analyze_scope tl iter fs description = Returned d ∧
         approved d = true)
   ↔ (length fs ≤ 10)%nat) ∧
  (∀ e, ScopeValidator.analyze_scope tl iter fs description = Raised e →
        ScopeValidator.exc_file_count e = length fs ∧
        ScopeValidator.exc_max_allowed e = 10%nat) ∧
  (∀ d, ScopeValidator.analyze_scope tl iter fs description = Returned d →
        approved d = true).
Proof.
  destruct (Nat.le_gt_cases (length fs) 10) as [Hle|Hgt].
  - destruct (analyze_scope_returns tl iter fs description Hle) as (lvl & adv & Hr & _).
    rewrite Hr. split; [|split; [|split]].
    + split; [intros (e & He & _); discriminate | lia].
    + split; [done | intros _; by eexists].
    + discriminate.
    + by intros d [= <-].
  - destruct (analyze_scope_raises tl iter fs description Hgt) as (e & Hr & Hc & Hm).
    rewrite Hr. split; [|split; [|split]].
    + split; [done | intros _; by exists e].
    + split; [intros (d & Hd & _); discriminate | lia].
    + by intros e' [= <-].
    + discriminate.
Qed.

(** C2: with at most 10 files the tier is fixed by the number of entries
    alone: 0 to 3 is LOCAL, 4 to 5 MODERATE, 6 to 10 EXTENSIVE; any other
    list of the same length, with any description, gets the same tier; the
    empty list gets count 0 and LOCAL. *)
Theorem scope_tier_by_count (tl : pystr -> nat -> N -> pystr)
    (iter : gset pystr -> list pystr) (fs : list pystr) (description : pystr) :
  (length fs ≤ 10)%nat →
  (∃ d, ScopeValidator.analyze_scope tl iter fs description = Returned d ∧
        file_count d = length fs ∧
        ((length fs ≤ 3)%nat → scope_level d = py "LOCAL") ∧
        ((4 ≤ length fs ≤ 5)%nat → scope_level d = py "MODERATE") ∧
        ((6 ≤ length fs ≤ 10)%nat → scope_level d = py "EXTENSIVE") ∧
        (∀ fs' description' d',
           length fs' = length fs →
           ScopeValidator.analyze_scope tl iter fs' description' = Returned d' →
           scope_level d' = scope_level d)) ∧
  (∃ d0, ScopeValidator.analyze_scope tl iter [] description = Returned d0 ∧
         file_count d0 = 0%nat ∧ scope_level d0 = py "LOCAL").
Proof.
  intros Hle. split.
  - destruct (analyze_scope_returns tl iter fs description Hle) as (lvl & adv & Hr & Hlvl).
    eexists. split; [exact Hr|]. simpl. split; [done|].
    split; [|split; [|split]].
    + intros ?. destruct Hlvl as [(_ & -> & _)|[(? & _)|(? & _)]]; (done || lia).
    + intros ?. destruct Hlvl as [(? & _)|[(_ & -> & _)|(? & _)]]; (done || lia).
    + intros ?. destruct Hlvl as [(? & _)|[(? & _)|(_ & -> & _)]]; (done || lia).
    + intros fs' description' d' Hlen Hr'.
      assert (length fs' ≤ 10)%nat as Hle' by lia.
      destruct (analyze_scope_returns tl iter fs' description' Hle')
        as (lvl' & adv' & Hr2 & Hlvl').
      rewrite Hr2 in Hr'. injection Hr' as <-. simpl. rewrite Hlen in Hlvl'.
      destruct Hlvl as [(? & -> & _)|[(? & -> & _)|(? & -> & _)]];
        destruct Hlvl' as [(? & -> & _)|[(? & -> & _)|(? & -> & _)]]; (done || lia).
  - destruct (analyze_scope_returns tl iter [] description) as (lvl & adv & Hr & Hlvl);
      [simpl; lia|].
    eexists. split; [exact Hr|]. simpl. split; [done|].
    destruct Hlvl as [(_ & -> & _)|[(? & _)|(? & _)]]; [done | simpl in *; lia ..].
Qed.

(** Five entries, one of them three times, are counted as five. *)
Lemma scope_tier_by_count_witness :
  (∃ d, ScopeValidator.analyze_scope plain_lower elements
          [py "a.css"; py "a.css"; py "a.css"; py "b.css"; py "c.css"]
          (py "Update color scheme") = Returned d ∧
        file_count d = 5%nat ∧
        ((5 ≤ 3)%nat → scope_level d = py "LOCAL") ∧
        ((4 ≤ 5 ≤ 5)%nat → scope_level d = py "MODERATE") ∧
        ((6 ≤ 5 ≤ 10)%nat → scope_level d = py "EXTENSIVE") ∧
        (∀ fs' description' d',
           length fs' = 5%nat →
           ScopeValidator.analyze_scope plain_lower elements fs' description' = Returned d' →
           scope_level d' = scope_level d)) ∧
  (∃ d0, ScopeValidator.analyze_scope plain_lower elements [] (py "Update color scheme")
           = Returned d0 ∧
         file_count d0 = 0%nat ∧ scope_level d0 = py "LOCAL").
Proof.
  apply (scope_tier_by_count plain_lower elements
           [py "a.css"; py "a.css"; py "a.css"; py "b.css"; py "c.css"]
           (py "Update color scheme")).
  simpl. lia.
Defined.

(** C7: the decision returned carries the list of files it was given, as it
    was given, and [file_count] is the length of that list. *)
Theorem files_echoed (tl : pystr -> nat -> N -> pystr)
    (iter : gset pystr -> list pystr) (fs : list pystr) (description : pystr)
    (d : ScopeDecision) :
  ScopeValidator.analyze_scope tl iter fs description = Returned d →
  files d = fs ∧ file_count d = length fs ∧ file_count d = length (files d).
Proof.
  intros Hr. destruct (Nat.le_gt_cases (length fs) 10) as [Hle|Hgt].
  - destruct (analyze_scope_returns tl iter fs description Hle) as (lvl & adv & Hr' & _).
    rewrite Hr' in Hr. by injection Hr as <-.
  - destruct (analyze_scope_raises tl iter fs description Hgt) as (e & Hr' & _).
    rewrite Hr' in Hr. discriminate.
Qed.

Lemma files_echoed_witness :
  files echo_decision = echo_files ∧
  file_count echo_decision = length echo_files ∧
  file_count echo_decision = length (files echo_decision).
Proof.
  apply (files_echoed plain_lower elements echo_files (py "Tidy the theme") echo_decision).
  vm_compute. reflexivity.
Defined.

(** * The three checks *)

Lemma detect_members (tl : pystr -> nat -> N -> pystr) (iter : gset pystr -> list pystr)
    (fs : list pystr) (description w : pystr) :
  w ∈ ScopeValidator.detect_anti_patterns tl iter fs description ↔
    (infra_ui_applies tl fs description ∧
     w = infra_ui_warning (filter names_infrastructure fs))
    ∨ ((3 < size (top_dirs_of fs))%nat ∧
       w = cross_module_warning (size (top_dirs_of fs)) (sorted iter (top_dirs_of fs)))
    ∨ (complexity_applies tl description ∧
       w = complexity_warning
             (filter (fun kw => substring kw (lower tl description)) complexity_keywords)).
Proof.
  destruct (detect_check_by_check tl iter fs description)
    as (w1 & w2 & w3 & -> & H1 & H2 & H3).
  rewrite !elem_of_app.
  destruct H1 as [[? ->]|[? ->]], H2 as [[? ->]|[? ->]], H3 as [[? ->]|[? ->]];
    rewrite ?list_elem_of_singleton, ?elem_of_nil; tauto.
Qed.

Ltac which_check H :=
  apply detect_members in H as [[? ->]|[[? ->]|[? ->]]].

Ltac wrong_header :=
  match goal with
  | H : is_infra_ui_warning (cross_module_warning _ _) |- _ =>
      exfalso; apply headers_apart in H as [H _]; apply H, cross_module_warning_is
  | H : is_infra_ui_warning (complexity_warning _) |- _ =>
      exfalso; apply headers_apart in H as [_ H]; apply H, complexity_warning_is
  | H : is_cross_module_warning (infra_ui_warning _) |- _ =>
      exfalso; apply (proj1 (headers_apart _) (infra_ui_warning_is _)) in H; exact H
  | H : is_cross_module_warning (complexity_warning _) |- _ =>
      exfalso; apply headers_apart in H; apply H, complexity_warning_is
  | H : is_complexity_warning (infra_ui_warning _) |- _ =>
      exfalso; apply (proj1 (headers_apart _) (infra_ui_warning_is _)) in H; exact H
  | H : is_complexity_warning (cross_module_warning _ _) |- _ =>
      exfalso; apply (proj2 (headers_apart _) (cross_module_warning_is _ _)) in H; exact H
  end.

(** C3: check 1 puts its warning among the warnings exactly when the
    description in lower case holds one of ui, css, style, button, layout
    and some path holds one of the eleven markers; the warning names the
    paths that hold a marker, in the order of the input. *)
Theorem infra_ui_check (tl : pystr -> nat -> N -> pystr) (iter : gset pystr -> list pystr)
    (fs : list pystr) (description : pystr) :
  ((∃ w, w ∈ ScopeValidator.detect_anti_patterns tl iter fs description ∧
         is_infra_ui_warning w)
   ↔ (∃ kw, kw ∈ [py "ui"; py "css"; py "style"; py "button"; py "layout"] ∧
            substring kw (lower tl description)) ∧
     (∃ f, f ∈ fs ∧
           ∃ marker, marker ∈ ScopeValidator.INFRASTRUCTURE_FILES ∧ substring marker f)) ∧
  (∀ w, w ∈ ScopeValidator.detect_anti_patterns tl iter fs description →
        is_infra_ui_warning w →
        w = infra_ui_header ++ nl ++ py "   Files: " ++
            join (py ", ") (filter names_infrastructure fs) ++ nl ++
            py "   Recommendation: Keep infrastructure changes separate from UI fixes") ∧
  ScopeValidator.INFRASTRUCTURE_FILES =
    [py "Dockerfile"; py "docker-compose.yml"; py "docker-compose.yaml"; py "nginx.conf";
     py ".k8s/"; py "kubernetes/"; py "terraform/"; py ".tf"; py ".github/workflows/";
     py "Jenkinsfile"; py ".circleci/"].
Proof.
  split; [|split; [|reflexivity]].
  - split.
    + intros (w & Hw & Hhd). which_check Hw; [done | wrong_header ..].
    + intros Happ. exists (infra_ui_warning (filter names_infrastructure fs)).
      split; [|apply infra_ui_warning_is]. apply detect_members. by left.
  - intros w Hw Hhd. which_check Hw; [done | wrong_header ..].
Qed.

(** C4: check 2 takes as module of a path with a ['/'] what stands before
    the first ['/'], and nothing from a path without one; it puts its warning
    among the warnings exactly when there are more than 3 distinct modules;
    the warning gives their number and lists each of them once, in
    lexicographic order. *)
Theorem cross_module_check (tl : pystr -> nat -> N -> pystr)
    (iter : gset pystr -> list pystr) (fs : list pystr) (description : pystr) :
  (∀ X, iter X ≡ₚ elements X) →
  ∃ T : gset pystr,
    (∀ m, m ∈ T ↔ ∃ f rest, f ∈ fs ∧ f = m ++ slash :: rest ∧ slash ∉ m) ∧
    ((∃ w, w ∈ ScopeValidator.detect_anti_patterns tl iter fs description ∧
           is_cross_module_warning w)
     ↔ (3 < size T)%nat) ∧
    (∀ w, w ∈ ScopeValidator.detect_anti_patterns tl iter fs description →
          is_cross_module_warning w →
          ∃ listed,
            w = cross_module_header ++ str_of_nat (size T) ++ py " unrelated modules: " ++
                join (py ", ") listed ++ nl ++
                py "   Recommendation: Split into focused changes per module" ∧
            StronglySorted lex_le listed ∧ NoDup listed ∧ ∀ m, m ∈ listed ↔ m ∈ T).
Proof.
  intros Hiter. exists (top_dirs_of fs). split; [|split].
  - intros m. rewrite (top_dirs_of_modules fs m). unfold module_token. split.
    + intros (f & Hf & rest & Heq & Hm). by exists f, rest.
    + intros (f & rest & Hf & Heq & Hm). exists f. split; [done | by exists rest].
  - split.
    + intros (w & Hw & Hhd). which_check Hw; [wrong_header | done | wrong_header].
    + intros Hsz. eexists. split; [|apply cross_module_warning_is].
      apply detect_members. right. left. by split.
  - intros w Hw Hhd. which_check Hw; [wrong_header | | wrong_header].
    exists (sorted iter (top_dirs_of fs)). split; [done|].
    apply sorted_spec, Hiter.
Qed.

(** Four modules, given out of order and one of them twice; [README.md] has
    no separator. *)
Lemma cross_module_check_witness :
  ∃ T : gset pystr,
    (∀ m, m ∈ T ↔ ∃ f rest,
        f ∈ [py "d/x"; py "b/x"; py "a/x"; py "c/x"; py "b/y"; py "README.md"] ∧
        f = m ++ slash :: rest ∧ slash ∉ m) ∧
    ((∃ w, w ∈ ScopeValidator.detect_anti_patterns plain_lower (fun X => reverse (elements X))
               [py "d/x"; py "b/x"; py "a/x"; py "c/x"; py "b/y"; py "README.md"]
               (py "Rename a helper") ∧
           is_cross_module_warning w)
     ↔ (3 < size T)%nat) ∧
    (∀ w, w ∈ ScopeValidator.detect_anti_patterns plain_lower (fun X => reverse (elements X))
              [py "d/x"; py "b/x"; py "a/x"; py "c/x"; py "b/y"; py "README.md"]
              (py "Rename a helper") →
          is_cross_module_warning w →
          ∃ listed,
            w = cross_module_header ++ str_of_nat (size T) ++ py " unrelated modules: " ++
                join (py ", ") listed ++ nl ++
                py "   Recommendation: Split into focused changes per module" ∧
            StronglySorted lex_le listed ∧ NoDup listed ∧ ∀ m, m ∈ listed ↔ m ∈ T).
Proof.
  apply (cross_module_check plain_lower (fun X => reverse (elements X))
           [py "d/x"; py "b/x"; py "a/x"; py "c/x"; py "b/y"; py "README.md"]
           (py "Rename a helper")).
  intros X. apply reverse_Permutation.
Defined.

(** C5: check 3 puts its warning among the warnings exactly when the
    description in lower case holds one of factory, manager, handler,
    builder, strategy, adapter and also one of fix, bug, typo, minor; with
    only one of the two it does not; the warning names the complexity
    keywords that occur. *)
Theorem complexity_check (tl : pystr -> nat -> N -> pystr)
    (iter : gset pystr -> list pystr) (fs : list pystr) (description : pystr) :
  let has_complexity :=
    ∃ kw, kw ∈ [py "factory"; py "manager"; py "handler"; py "builder"; py "strategy";
                py "adapter"] ∧
          substring kw (lower tl description) in
  let is_simple :=
    ∃ kw, kw ∈ [py "fix"; py "bug"; py "typo"; py "minor"] ∧
          substring kw (lower tl description) in
  let fires :=
    ∃ w, w ∈ ScopeValidator.detect_anti_patterns tl iter fs description ∧
         is_complexity_warning w in
  (fires ↔ has_complexity ∧ is_simple) ∧
  (has_complexity ∧ ¬ is_simple → ¬ fires) ∧
  (¬ has_complexity ∧ is_simple → ¬ fires) ∧
  (∀ w, w ∈ ScopeValidator.detect_anti_patterns tl iter fs description →
        is_complexity_warning w →
        w = complexity_header ++
            repr_list (filter (fun kw => substring kw (lower tl description))
                         [py "factory"; py "manager"; py "handler"; py "builder";
                          py "strategy"; py "adapter"]) ++
            py ") for simple fix" ++ nl ++
            py "   Recommendation: Use simplest solution that works").
Proof.
  intros has_complexity is_simple fires.
  assert (fires ↔ has_complexity ∧ is_simple) as Hiff.
  { split.
    - intros (w & Hw & Hhd). which_check Hw; [wrong_header | wrong_header | done].
    - intros Happ. eexists. split; [|apply complexity_warning_is].
      apply detect_members. right. right. by split. }
  split; [done|]. split; [tauto|]. split; [tauto|].
  intros w Hw Hhd. which_check Hw; [wrong_header | wrong_header | done].
Qed.

(** * The assembled decision *)

(** C6: the warnings of a decision are, in this order, the advisory of the
    tier (none for LOCAL, one for MODERATE and for EXTENSIVE), then the
    warning of check 1, of check 2 and of check 3, each present exactly when
    its own condition holds, whatever the other checks found. *)
Theorem warnings_in_order (tl : pystr -> nat -> N -> pystr)
    (iter : gset pystr -> list pystr) (fs : list pystr) (description : pystr)
    (d : ScopeDecision) :
  ScopeValidator.analyze_scope tl iter fs description = Returned d →
  ∃ advisory w1 w2 w3,
    warnings d = advisory ++ w1 ++ w2 ++ w3 ∧
    (scope_level d = py "LOCAL" ∧ advisory = []
     ∨ scope_level d = py "MODERATE" ∧ advisory = [moderate_advisory]
     ∨ scope_level d = py "EXTENSIVE" ∧ advisory = [extensive_advisory]) ∧
    (infra_ui_applies tl fs description ∧
       w1 = [infra_ui_warning (filter names_infrastructure fs)]
     ∨ ¬ infra_ui_applies tl fs description ∧ w1 = []) ∧
    (∃ T, modules_of fs T ∧
          ((3 < size T)%nat ∧ w2 = [cross_module_warning (size T) (sorted iter T)]
           ∨ ¬ (3 < size T)%nat ∧ w2 = [])) ∧
    (complexity_applies tl description ∧
       w3 = [complexity_warning
               (filter (fun kw => substring kw (lower tl description)) complexity_keywords)]
     ∨ ¬ complexity_applies tl description ∧ w3 = []).
Proof.
  intros Hr. destruct (Nat.le_gt_cases (length fs) 10) as [Hle|Hgt].
  - destruct (analyze_scope_returns tl iter fs description Hle)
      as (lvl & adv & Hr' & Hlvl).
    rewrite Hr' in Hr. injection Hr as <-. simpl.
    destruct (detect_check_by_check tl iter fs description)
      as (w1 & w2 & w3 & -> & H1 & H2 & H3).
    exists adv, w1, w2, w3. split; [done|]. split; [|split; [done|split; [|done]]].
    + destruct Hlvl as [(_ & -> & ->)|[(_ & -> & ->)|(_ & -> & ->)]]; auto.
    + exists (top_dirs_of fs). split; [apply top_dirs_of_modules | done].
  - destruct (analyze_scope_raises tl iter fs description Hgt) as (e & Hr' & _).
    rewrite Hr' in Hr. discriminate.
Qed.

Lemma warnings_in_order_witness :
  ∃ advisory w1 w2 w3,
    warnings busy_decision = advisory ++ w1 ++ w2 ++ w3 ∧
    (scope_level busy_decision = py "LOCAL" ∧ advisory = []
     ∨ scope_level busy_decision = py "MODERATE" ∧ advisory = [moderate_advisory]
     ∨ scope_level busy_decision = py "EXTENSIVE" ∧ advisory = [extensive_advisory]) ∧
    (infra_ui_applies plain_lower busy_files busy_description ∧
       w1 = [infra_ui_warning (filter names_infrastructure busy_files)]
     ∨ ¬ infra_ui_applies plain_lower busy_files busy_description ∧ w1 = []) ∧
    (∃ T, modules_of busy_files T ∧
          ((3 < size T)%nat ∧ w2 = [cross_module_warning (size T) (sorted elements T)]
           ∨ ¬ (3 < size T)%nat ∧ w2 = [])) ∧
    (complexity_applies plain_lower busy_description ∧
       w3 = [complexity_warning
               (filter (fun kw => substring kw (lower plain_lower busy_description))
                  complexity_keywords)]
     ∨ ¬ complexity_applies plain_lower busy_description ∧ w3 = []).
Proof.
  apply (warnings_in_order plain_lower elements busy_files busy_description busy_decision).
  vm_compute. reflexivity.
Defined.

(** * Iteration order, and the two copies *)

Lemma detect_iter_irrelevant (tl : pystr -> nat -> N -> pystr)
    (iter1 iter2 : gset pystr -> list pystr) (fs : list pystr) (description : pystr) :
  (∀ X, iter1 X ≡ₚ elements X) → (∀ X, iter2 X ≡ₚ elements X) →
  ScopeValidator.detect_anti_patterns tl iter1 fs description =
  ScopeValidator.detect_anti_patterns tl iter2 fs description.
Proof.
  intros H1 H2. rewrite !detect_blocks.
  by rewrite (sorted_iter_irrelevant iter1 iter2 _ (H1 _) (H2 _)).
Qed.

Lemma analyze_scope_iter_irrelevant (tl : pystr -> nat -> N -> pystr)
    (iter1 iter2 : gset pystr -> list pystr) (fs : list pystr) (description : pystr) :
  (∀ X, iter1 X ≡ₚ elements X) → (∀ X, iter2 X ≡ₚ elements X) →
  ScopeValidator.analyze_scope tl iter1 fs description =
  ScopeValidator.analyze_scope tl iter2 fs description.
Proof.
  intros H1 H2. unfold ScopeValidator.analyze_scope.
  by rewrite (detect_iter_irrelevant tl iter1 iter2 fs description H1 H2).
Qed.

Lemma tool_detect_same (tl : pystr -> nat -> N -> pystr) (iter : gset pystr -> list pystr)
    (fs : list pystr) (description : pystr) :
  IntegrationSpecialistTool.detect_anti_patterns tl iter fs description =
  ScopeValidator.detect_anti_patterns tl iter fs description.
Proof. reflexivity. Qed.

Lemma tool_same_runtime (tl : pystr -> nat -> N -> pystr) (iter : gset pystr -> list pystr)
    (fs : list pystr) (description : pystr) :
  same_outcome (ScopeValidator.analyze_scope tl iter fs description)
               (IntegrationSpecialistTool._analyze_scope_impl tl iter fs description).
Proof.
  unfold ScopeValidator.analyze_scope, IntegrationSpecialistTool._analyze_scope_impl.
  cbv zeta. change (IntegrationSpecialistTool.detect_anti_patterns tl iter fs description)
    with (ScopeValidator.detect_anti_patterns tl iter fs description).
  destruct (10 <? length fs)%nat; [by repeat split|].
  destruct (length fs <=? 3)%nat; [done|].
  destruct (length fs <=? 5)%nat; done.
Qed.

(** C8: [analyze_scope] and [_analyze_scope_impl] agree on every input: they
    return equal decisions, or they both raise, with equal [file_count] and
    [max_allowed] (and message). *)
Theorem two_surfaces_agree (tl : pystr -> nat -> N -> pystr)
    (iter1 iter2 : gset pystr -> list pystr) (fs : list pystr) (description : pystr) :
  (∀ X, iter1 X ≡ₚ elements X) → (∀ X, iter2 X ≡ₚ elements X) →
  match ScopeValidator.analyze_scope tl iter1 fs description,
        IntegrationSpecialistTool._analyze_scope_impl tl iter2 fs description with
  | Returned d1, Returned d2 => d1 = d2
  | Raised e1, Raised e2 =>
      ScopeValidator.exc_file_count e1 = IntegrationSpecialistTool.exc_file_count e2 ∧
      ScopeValidator.exc_max_allowed e1 = IntegrationSpecialistTool.exc_max_allowed e2 ∧
      ScopeValidator.exc_message e1 = IntegrationSpecialistTool.exc_message e2
  | _, _ => False
  end.
Proof.
  intros H1 H2.
  rewrite (analyze_scope_iter_irrelevant tl iter1 iter2 fs description H1 H2).
  apply tool_same_runtime.
Qed.

Lemma two_surfaces_agree_witness :
  match ScopeValidator.analyze_scope plain_lower elements spread_files (py "Fix CSS"),
        IntegrationSpecialistTool._analyze_scope_impl plain_lower
          (fun X => reverse (elements X)) spread_files (py "Fix CSS") with
  | Returned d1, Returned d2 => d1 = d2
  | Raised e1, Raised e2 =>
      ScopeValidator.exc_file_count e1 = IntegrationSpecialistTool.exc_file_count e2 ∧
      ScopeValidator.exc_max_allowed e1 = IntegrationSpecialistTool.exc_max_allowed e2 ∧
      ScopeValidator.exc_message e1 = IntegrationSpecialistTool.exc_message e2
  | _, _ => False
  end.
Proof.
  apply (two_surfaces_agree plain_lower elements (fun X => reverse (elements X))
           spread_files (py "Fix CSS")).
  - intros X. reflexivity.
  - intros X. apply reverse_Permutation.
Defined.

(** C9: two calls of [analyze_scope] on equal file lists and equal
    descriptions have the same outcome, also when the sets of the two calls
    yield their elements in different orders. *)
Theorem analyze_scope_deterministic (tl : pystr -> nat -> N -> pystr)
    (iter1 iter2 : gset pystr -> list pystr)
    (fs1 fs2 : list pystr) (description1 description2 : pystr) :
  (∀ X, iter1 X ≡ₚ elements X) → (∀ X, iter2 X ≡ₚ elements X) →
  fs1 = fs2 → description1 = description2 →
  ScopeValidator.analyze_scope tl iter1 fs1 description1 =
  ScopeValidator.analyze_scope tl iter2 fs2 description2.
Proof.
  intros H1 H2 -> ->. by apply analyze_scope_iter_irrelevant.
Qed.

Lemma analyze_scope_deterministic_witness :
  ScopeValidator.analyze_scope plain_lower elements spread_files (py "Fix CSS") =
  ScopeValidator.analyze_scope plain_lower (fun X => reverse (elements X))
    spread_files (py "Fix CSS").
Proof.
  apply (analyze_scope_deterministic plain_lower elements (fun X => reverse (elements X))
           spread_files spread_files (py "Fix CSS") (py "Fix CSS")).
  - intros X. reflexivity.
  - intros X. apply reverse_Permutation.
  - reflexivity.
  - reflexivity.
Defined.

(** * Letter case *)

Lemma keywords_ascii :
  Forall (Forall (fun c => (c < 128)%N))
    (ui_keywords ++ complexity_keywords ++ simple_fix_keywords).
Proof. repeat constructor. Qed.

(** A keyword written in any mix of upper and lower case in the description
    is found in the lower-cased description. *)
Lemma keyword_any_case (tl : pystr -> nat -> N -> pystr) (description k kw : pystr) :
  kw ∈ ui_keywords ++ complexity_keywords ++ simple_fix_keywords →
  ascii_tolower <$> k = kw → substring k description →
  substring kw (lower tl description).
Proof.
  intros Hkw <- Hsub. apply lower_substring; [|done].
  pose proof keywords_ascii as Hall. rewrite Forall_forall in Hall.
  specialize (Hall _ Hkw). rewrite Forall_fmap in Hall.
  eapply Forall_impl; [exact Hall|]. intros c Hc. by apply ascii_tolower_ascii.
Qed.

Lemma substring_fmap (g : N -> N) (a b : pystr) :
  substring a b → substring (g <$> a) (g <$> b).
Proof. intros (x & y & ->). exists (g <$> x), (g <$> y). by rewrite !fmap_app. Qed.

Lemma substring_Forall (P : N -> Prop) (a b : pystr) :
  substring a b → Forall P b → Forall P a.
Proof.
  intros (x & y & ->) H. apply Forall_app in H as [_ H]. by apply Forall_app in H as [H _].
Qed.

Lemma substring_same_length (a b : pystr) :
  substring a b → length a = length b → a = b.
Proof.
  intros (x & y & ->) Hlen. rewrite !length_app in Hlen.
  destruct x; [|simpl in Hlen; lia]. destruct y; [|simpl in Hlen; lia].
  by rewrite app_nil_r.
Qed.

(** Every marker has a lower-case letter, and no marker occurs in another
    one, letter case set aside. *)
Lemma markers_have_lower_case :
  Forall (fun marker => Exists (fun c => (97 ≤ c ≤ 122)%N) marker)
    ScopeValidator.INFRASTRUCTURE_FILES.
Proof. apply (bool_decide_unpack _). vm_compute. exact I. Qed.

Lemma markers_case_apart :
  Forall (fun marker =>
            Forall (fun marker' =>
                      substring (ascii_tolower <$> marker') (ascii_tolower <$> marker) →
                      marker' = marker)
              ScopeValidator.INFRASTRUCTURE_FILES)
    ScopeValidator.INFRASTRUCTURE_FILES.
Proof. apply (bool_decide_unpack _). vm_compute. exact I. Qed.

Lemma no_marker_no_warning (tl : pystr -> nat -> N -> pystr)
    (iter : gset pystr -> list pystr) (fs : list pystr) (description : pystr) :
  Forall (fun f => ¬ names_infrastructure f) fs →
  ¬ ∃ w, w ∈ ScopeValidator.detect_anti_patterns tl iter fs description ∧
         is_infra_ui_warning w.
Proof.
  intros Hfs (w & Hw & Hhd). which_check Hw; [|wrong_header ..].
  destruct H as (_ & f & Hf & Hinfra).
  rewrite Forall_forall in Hfs. by apply (Hfs f Hf).
Qed.

Lemma upper_case_no_marker (f : pystr) :
  Forall (fun c => ¬ (97 ≤ c ≤ 122)%N) f → ¬ names_infrastructure f.
Proof.
  intros Hf (marker & Hm & Hsub).
  pose proof markers_have_lower_case as Hall. rewrite Forall_forall in Hall.
  specialize (Hall marker Hm). apply Exists_exists in Hall as (c & Hc & Hlow).
  pose proof (substring_Forall _ _ _ Hsub Hf) as Hmarker.
  rewrite Forall_forall in Hmarker. by apply (Hmarker c Hc).
Qed.

Lemma other_case_no_marker (marker f : pystr) :
  marker ∈ ScopeValidator.INFRASTRUCTURE_FILES →
  ascii_tolower <$> f = ascii_tolower <$> marker → f ≠ marker →
  ¬ names_infrastructure f.
Proof.
  intros Hm Hsame Hne (marker' & Hm' & Hsub).
  pose proof markers_case_apart as Hall. rewrite Forall_forall in Hall.
  specialize (Hall marker Hm). rewrite Forall_forall in Hall.
  assert (marker' = marker) as ->.
  { apply (Hall marker' Hm'). rewrite <- Hsame. by apply substring_fmap. }
  apply Hne. symmetry. apply substring_same_length; [done|].
  by rewrite <- (length_fmap ascii_tolower marker), <- Hsame, length_fmap.
Qed.

(** C10: the markers are looked for in the paths as they are written.  A
    list in which no path holds a marker as it is written never gets the
    warning of check 1, with any description, and the warning names only
    paths that hold one; a path without a lower-case letter holds no marker,
    and neither does a marker written in another letter case than its own:
    [dockerfile] and [DOCKERFILE] hold none, [Dockerfile] does.  The
    keywords are looked for in the description in lower case, so a keyword
    written in any letter case in the description counts, for check 1 and
    for check 3. *)
Theorem marker_case_keyword_case (tl : pystr -> nat -> N -> pystr)
    (iter : gset pystr -> list pystr) :
  (¬ names_infrastructure (py "dockerfile") ∧
   ¬ names_infrastructure (py "DOCKERFILE") ∧
   names_infrastructure (py "Dockerfile")) ∧
  (∀ fs description,
     Forall (fun f => f = py "dockerfile" ∨ f = py "DOCKERFILE") fs →
     ¬ ∃ w, w ∈ ScopeValidator.detect_anti_patterns tl iter fs description ∧
            is_infra_ui_warning w) ∧
  (∀ description k kw,
     kw ∈ ui_keywords ++ complexity_keywords ++ simple_fix_keywords →
     ascii_tolower <$> k = kw → substring k description →
     substring kw (lower tl description)) ∧
  (∀ fs description k kw,
     kw ∈ ui_keywords → ascii_tolower <$> k = kw → substring k description →
     (∃ f, f ∈ fs ∧ names_infrastructure f) →
     ∃ w, w ∈ ScopeValidator.detect_anti_patterns tl iter fs description ∧
          is_infra_ui_warning w) ∧
  ScopeValidator.detect_anti_patterns tl iter [py "DOCKERFILE"] (py "Fix CSS") = [] ∧
  ScopeValidator.detect_anti_patterns tl iter [py "Dockerfile"] (py "Fix CSS") =
    [infra_ui_warning [py "Dockerfile"]] ∧
  ScopeValidator.detect_anti_patterns tl iter [py "Dockerfile"] (py "fix css") =
    [infra_ui_warning [py "Dockerfile"]] ∧
  (∀ fs description,
     Forall (fun f => ¬ ∃ marker, marker ∈ ScopeValidator.INFRASTRUCTURE_FILES ∧
                                  substring marker f) fs →
     ¬ ∃ w, w ∈ ScopeValidator.detect_anti_patterns tl iter fs description ∧
            is_infra_ui_warning w) ∧
  (∀ fs description w,
     w ∈ ScopeValidator.detect_anti_patterns tl iter fs description →
     is_infra_ui_warning w →
     w = infra_ui_warning
           (filter (fun f => ∃ marker, marker ∈ ScopeValidator.INFRASTRUCTURE_FILES ∧
                                       substring marker f) fs)) ∧
  (∀ f, Forall (fun c => ¬ (97 ≤ c ≤ 122)%N) f →
        ¬ ∃ marker, marker ∈ ScopeValidator.INFRASTRUCTURE_FILES ∧ substring marker f) ∧
  (∀ marker f,
     marker ∈ ScopeValidator.INFRASTRUCTURE_FILES →
     ascii_tolower <$> f = ascii_tolower <$> marker → f ≠ marker →
     ¬ ∃ marker', marker' ∈ ScopeValidator.INFRASTRUCTURE_FILES ∧ substring marker' f) ∧
  ScopeValidator.detect_anti_patterns tl iter
    [py "NGINX.CONF"; py "Docker-Compose.yml"; py "jenkinsfile"; py "main.TF"]
    (py "Fix CSS") = [] ∧
  (∀ fs description k1 k2 kw1 kw2,
     kw1 ∈ complexity_keywords → kw2 ∈ simple_fix_keywords →
     ascii_tolower <$> k1 = kw1 → ascii_tolower <$> k2 = kw2 →
     substring k1 description → substring k2 description →
     ∃ w, w ∈ ScopeValidator.detect_anti_patterns tl iter fs description ∧
          is_complexity_warning w).
Proof.
  assert (¬ names_infrastructure (py "dockerfile")) as Hlow
    by (apply (bool_decide_unpack (¬ _)); vm_compute; exact I).
  assert (¬ names_infrastructure (py "DOCKERFILE")) as Hup
    by (apply (bool_decide_unpack (¬ _)); vm_compute; exact I).
  split; [|split; [|split; [|split; [|split; [|split; [|split;
    [|split; [|split; [|split; [|split; [|split]]]]]]]]]]].
  - split; [done|]. split; [done|].
    apply (bool_decide_unpack _). vm_compute. exact I.
  - intros fs description Hfs. apply no_marker_no_warning.
    eapply Forall_impl; [exact Hfs|]. by intros f [-> | ->].
  - intros description k kw. apply keyword_any_case.
  - intros fs description k kw Hkw Hk Hsub Hinfra.
    exists (infra_ui_warning (filter names_infrastructure fs)).
    split; [|apply infra_ui_warning_is]. apply detect_members. left.
    split; [|done]. split; [|done]. exists kw. split; [done|].
    apply (keyword_any_case tl description k kw); [|done..].
    apply elem_of_app. by left.
  - vm_compute. reflexivity.
  - vm_compute. reflexivity.
  - vm_compute. reflexivity.
  - intros fs description. apply no_marker_no_warning.
  - intros fs description w Hw Hhd. which_check Hw; [done | wrong_header ..].
  - apply upper_case_no_marker.
  - apply other_case_no_marker.
  - vm_compute. reflexivity.
  - intros fs description k1 k2 kw1 kw2 Hkw1 Hkw2 Hk1 Hk2 Hsub1 Hsub2.
    eexists. split; [|apply complexity_warning_is].
    apply detect_members. right. right. split; [|done]. split.
    + exists kw1. split; [done|].
      apply (keyword_any_case tl description k1 kw1); [|done..].
      apply elem_of_app. right. apply elem_of_app. by left.
    + exists kw2. split; [done|].
      apply (keyword_any_case tl description k2 kw2); [|done..].
      apply elem_of_app. right. apply elem_of_app. by right.
Qed.

(** * Scenarios: the cases of [test_scope_standalone.py], and one input for
    check 2 and for check 3 *)

Example scenario_legitimate_css_fix :
  ScopeValidator.analyze_scope plain_lower elements
    [py "src/components/Button.css"; py "src/components/Header.css"]
    (py "Fix button alignment in header")
  = Returned {| approved := true;
                scope_level := py "LOCAL";
                file_count := 2;
                warnings := [];
                files := [py "src/components/Button.css"; py "src/components/Header.css"] |}.
Proof. vm_compute. reflexivity. Qed.

Example scenario_infrastructure_for_ui :
  ScopeValidator.analyze_scope plain_lower elements
    [py "src/components/Button.css"; py "Dockerfile"; py "docker-compose.yml"]
    (py "Fix CSS button alignment")
  = Returned {| approved := true;
                scope_level := py "LOCAL";
                file_count := 3;
                warnings := [infra_ui_warning [py "Dockerfile"; py "docker-compose.yml"]];
                files := [py "src/components/Button.css"; py "Dockerfile";
                          py "docker-compose.yml"] |}.
Proof. vm_compute. reflexivity. Qed.

Example scenario_four_modules :
  ScopeValidator.detect_anti_patterns plain_lower elements
    [py "a/x"; py "b/x"; py "c/x"; py "d/x"] (py "Rename a helper")
  = [cross_module_warning 4 [py "a"; py "b"; py "c"; py "d"]].
Proof. vm_compute. reflexivity. Qed.

Example scenario_factory_for_fix :
  ScopeValidator.detect_anti_patterns plain_lower elements
    [py "src/app.py"] (py "fix: refactor with factory pattern")
  = [complexity_warning [py "factory"]].
Proof. vm_compute. reflexivity. Qed.

Example scenario_moderate_scope :
  ScopeValidator.analyze_scope plain_lower elements
    [py "src/components/Button.css"; py "src/components/Header.css";
     py "src/components/Footer.css"; py "src/components/Sidebar.css";
     py "src/styles/theme.css"]
    (py "Update color scheme across components")
  = Returned {| approved := true;
                scope_level := py "MODERATE";
                file_count := 5;
                warnings := [moderate_advisory];
                files := [py "src/components/Button.css"; py "src/components/Header.css";
                          py "src/components/Footer.css"; py "src/components/Sidebar.css";
                          py "src/styles/theme.css"] |}.
Proof. vm_compute. reflexivity. Qed.

Example scenario_eleven_files :
  ∃ e, ScopeValidator.analyze_scope plain_lower elements
         [py "src/components/Button.css"; py "src/components/Header.css";
          py "src/components/Footer.css"; py "src/styles/theme.css";
          py "src/styles/variables.css"; py "public/index.html"; py "Dockerfile";
          py "docker-compose.yml"; py "nginx.conf"; py "src/App.js"; py "package.json"]
         (py "Fix CSS button styling issue") = Raised e ∧
       ScopeValidator.exc_file_count e = 11%nat ∧
       ScopeValidator.exc_max_allowed e = 10%nat ∧
       ScopeValidator.exc_message e =
         py "Scope limit exceeded: 11 files requested (max: 10)" ++ nl ++
         py "Recommendation: Break this change into smaller, focused tasks" ++ nl ++
         py "Files: src/components/Button.css, src/components/Header.css, " ++
         py "src/components/Footer.css, src/styles/theme.css, src/styles/variables.css...".
Proof. eexists. split; [vm_compute; reflexivity | done]. Qed.

(** * Further properties of the detector and the classifier *)

#[global] Instance has_slash_dec (f : pystr) : Decision (has_slash f).
Proof. unfold has_slash. apply _. Defined.

Lemma size_union_le (X Y : gset pystr) : (size (X ∪ Y) ≤ size X + size Y)%nat.
Proof.
  rewrite size_union_alt.
  assert (size (Y ∖ X) ≤ size Y)%nat; [|lia].
  apply subseteq_size. intros x Hx. by apply elem_of_difference in Hx as [? _].
Qed.

Lemma top_dirs_fold_size (fs : list pystr) (acc : gset pystr) :
  (size (foldl (fun top_dirs f =>
                  match split slash f with
                  | part0 :: _ :: _ => {[ part0 ]} ∪ top_dirs
                  | _ => top_dirs
                  end) acc fs)
   ≤ size acc + length (filter has_slash fs))%nat.
Proof.
  revert acc. induction fs as [|f fs IH]; intros acc; simpl; [lia|].
  etrans; [apply IH|]. rewrite filter_cons.
  pose proof (split_module_token f) as Hf.
  destruct (split slash f) as [|p0 [|p1 ps]].
  - destruct (decide (has_slash f)); simpl; lia.
  - destruct (decide (has_slash f)); simpl; lia.
  - apply module_token_slash in Hf. rewrite decide_True by done. simpl.
    pose proof (size_union_le {[p0]} acc) as Hu. rewrite size_singleton in Hu. lia.
Qed.

Lemma top_dirs_size (fs : list pystr) :
  (size (top_dirs_of fs) ≤ length (filter has_slash fs))%nat.
Proof.
  unfold top_dirs_of. etrans; [apply top_dirs_fold_size|].
  rewrite size_empty. lia.
Qed.

Lemma top_dirs_size_files (fs : list pystr) : (size (top_dirs_of fs) ≤ length fs)%nat.
Proof. etrans; [apply top_dirs_size | apply length_filter]. Qed.

Lemma top_dirs_of_subseteq (fs fs' : list pystr) :
  fs ⊆ fs' → top_dirs_of fs ⊆ top_dirs_of fs'.
Proof.
  intros Hsub m. rewrite (top_dirs_of_modules fs m), (top_dirs_of_modules fs' m).
  intros (f & Hf & Hm). exists f. split; [by apply Hsub | done].
Qed.

Lemma top_dirs_of_perm (fs fs' : list pystr) :
  fs ≡ₚ fs' → top_dirs_of fs = top_dirs_of fs'.
Proof.
  intros Hp. apply (modules_of_unique fs); [apply top_dirs_of_modules|].
  intros m. rewrite (top_dirs_of_modules fs' m).
  split; intros (f & Hf & Hm); exists f; (split; [|done]).
  - by rewrite Hp.
  - by rewrite <- Hp.
Qed.

Lemma sorted_length (iter : gset pystr -> list pystr) (X : gset pystr) :
  iter X ≡ₚ elements X → length (sorted iter X) = size X.
Proof.
  intros Hp. unfold sorted. by rewrite merge_sort_Permutation, Hp.
Qed.

(** A decision, piece by piece. *)
Lemma analyze_scope_shape (tl : pystr -> nat -> N -> pystr)
    (iter : gset pystr -> list pystr) (fs : list pystr) (description : pystr)
    (d : ScopeDecision) :
  ScopeValidator.analyze_scope tl iter fs description = Returned d →
  (length fs ≤ 10)%nat ∧ files d = fs ∧ file_count d = length fs ∧
  ∃ adv,
    warnings d = adv ++ ScopeValidator.detect_anti_patterns tl iter fs description ∧
    ((length fs ≤ 3)%nat ∧ scope_level d = py "LOCAL" ∧ adv = []
     ∨ (4 ≤ length fs ≤ 5)%nat ∧ scope_level d = py "MODERATE" ∧ adv = [moderate_advisory]
     ∨ (6 ≤ length fs ≤ 10)%nat ∧ scope_level d = py "EXTENSIVE" ∧
       adv = [extensive_advisory]).
Proof.
  intros Hr. destruct (Nat.le_gt_cases (length fs) 10) as [Hle|Hgt].
  - destruct (analyze_scope_returns tl iter fs description Hle)
      as (lvl & adv & Hr' & Hlvl).
    rewrite Hr' in Hr. injection Hr as <-. simpl. split; [done|].
    split; [done|]. split; [done|]. by exists adv.
  - destruct (analyze_scope_raises tl iter fs description Hgt) as (e & Hr' & _).
    rewrite Hr' in Hr. discriminate.
Qed.

Lemma filter_nil_Forall {A} (P : A → Prop) `{∀ x, Decision (P x)} (l : list A) :
  Forall (fun x => ¬ P x) l → filter P l = [].
Proof.
  induction 1 as [|x l Hx Hl IH]; [done|].
  rewrite filter_cons, decide_False by done. exact IH.
Qed.

Lemma filter_one_le {A} (P : A → Prop) `{∀ x, Decision (P x)} (l : list A) :
  (length l ≤ 1)%nat → (length (filter P l) ≤ 1)%nat.
Proof. intros. etrans; [apply length_filter | done]. Qed.

Lemma not_infra_cross (n : nat) (l : list pystr) :
  ¬ is_infra_ui_warning (cross_module_warning n l).
Proof. intros H. wrong_header. Qed.
Lemma not_infra_complexity (l : list pystr) :
  ¬ is_infra_ui_warning (complexity_warning l).
Proof. intros H. wrong_header. Qed.
Lemma not_cross_infra (l : list pystr) :
  ¬ is_cross_module_warning (infra_ui_warning l).
Proof. intros H. wrong_header. Qed.
Lemma not_cross_complexity (l : list pystr) :
  ¬ is_cross_module_warning (complexity_warning l).
Proof. intros H. wrong_header. Qed.
Lemma not_complexity_infra (l : list pystr) :
  ¬ is_complexity_warning (infra_ui_warning l).
Proof. intros H. wrong_header. Qed.
Lemma not_complexity_cross (n : nat) (l : list pystr) :
  ¬ is_complexity_warning (cross_module_warning n l).
Proof. intros H. wrong_header. Qed.

#[global] Instance is_infra_ui_warning_dec (w : pystr) : Decision (is_infra_ui_warning w).
Proof. unfold is_infra_ui_warning. apply _. Defined.
#[global] Instance is_cross_module_warning_dec (w : pystr) :
  Decision (is_cross_module_warning w).
Proof. unfold is_cross_module_warning. apply _. Defined.
#[global] Instance is_complexity_warning_dec (w : pystr) :
  Decision (is_complexity_warning w).
Proof. unfold is_complexity_warning. apply _. Defined.

(** X1: a decision carries at most four warnings, at most two when the
    tier is LOCAL, and at most one of each check. *)
Theorem warnings_bounded (tl : pystr -> nat -> N -> pystr)
    (iter : gset pystr -> list pystr) (fs : list pystr) (description : pystr)
    (d : ScopeDecision) :
  ScopeValidator.analyze_scope tl iter fs description = Returned d →
  (length (warnings d) ≤ 4)%nat ∧
  (scope_level d = py "LOCAL" → (length (warnings d) ≤ 2)%nat) ∧
  (length (filter is_infra_ui_warning (warnings d)) ≤ 1)%nat ∧
  (length (filter is_cross_module_warning (warnings d)) ≤ 1)%nat ∧
  (length (filter is_complexity_warning (warnings d)) ≤ 1)%nat.
Proof.
  intros Hr.
  destruct (analyze_scope_shape tl iter fs description d Hr)
    as (Hle & _ & _ & adv & -> & Hlvl).
  destruct (detect_check_by_check tl iter fs description)
    as (w1 & w2 & w3 & -> & H1 & H2 & H3).
  pose proof (top_dirs_size_files fs) as Hsz.
  assert (length w1 ≤ 1)%nat as L1 by (destruct H1 as [[_ ->]|[_ ->]]; simpl; lia).
  assert (length w2 ≤ 1)%nat as L2 by (destruct H2 as [[_ ->]|[_ ->]]; simpl; lia).
  assert (length w3 ≤ 1)%nat as L3 by (destruct H3 as [[_ ->]|[_ ->]]; simpl; lia).
  assert (length adv ≤ 1)%nat as L0
    by (destruct Hlvl as [(_ & _ & ->)|[(_ & _ & ->)|(_ & _ & ->)]]; simpl; lia).
  assert (Forall (fun w => ¬ is_infra_ui_warning w ∧ ¬ is_cross_module_warning w ∧
                           ¬ is_complexity_warning w) adv) as Hadv.
  { destruct Hlvl as [(_ & _ & ->)|[(_ & _ & ->)|(_ & _ & ->)]];
      repeat constructor; apply advisories_apart; auto. }
  rewrite !length_app. split; [lia|]. split.
  - intros Hlocal.
    destruct Hlvl as [(Hn & _ & ->)|[(_ & Hl & _)|(_ & Hl & _)]];
      [|rewrite Hl in Hlocal; discriminate ..].
    destruct H2 as [[? _]|[_ ->]]; [lia|]. simpl. lia.
  - rewrite !filter_app, !length_app.
    rewrite (filter_nil_Forall is_infra_ui_warning adv)
      by (eapply Forall_impl; [exact Hadv | tauto]).
    rewrite (filter_nil_Forall is_cross_module_warning adv)
      by (eapply Forall_impl; [exact Hadv | tauto]).
    rewrite (filter_nil_Forall is_complexity_warning adv)
      by (eapply Forall_impl; [exact Hadv | tauto]).
    rewrite (filter_nil_Forall is_infra_ui_warning w2)
      by (destruct H2 as [[_ ->]|[_ ->]]; repeat constructor; apply not_infra_cross).
    rewrite (filter_nil_Forall is_infra_ui_warning w3)
      by (destruct H3 as [[_ ->]|[_ ->]]; repeat constructor; apply not_infra_complexity).
    rewrite (filter_nil_Forall is_cross_module_warning w1)
      by (destruct H1 as [[_ ->]|[_ ->]]; repeat constructor; apply not_cross_infra).
    rewrite (filter_nil_Forall is_cross_module_warning w3)
      by (destruct H3 as [[_ ->]|[_ ->]]; repeat constructor; apply not_cross_complexity).
    rewrite (filter_nil_Forall is_complexity_warning w1)
      by (destruct H1 as [[_ ->]|[_ ->]]; repeat constructor; apply not_complexity_infra).
    rewrite (filter_nil_Forall is_complexity_warning w2)
      by (destruct H2 as [[_ ->]|[_ ->]]; repeat constructor; apply not_complexity_cross).
    pose proof (filter_one_le is_infra_ui_warning w1 L1).
    pose proof (filter_one_le is_cross_module_warning w2 L2).
    pose proof (filter_one_le is_complexity_warning w3 L3).
    simpl. lia.
Qed.

Lemma warnings_bounded_witness :
  (length (warnings busy_decision) ≤ 4)%nat ∧
  (scope_level busy_decision = py "LOCAL" → (length (warnings busy_decision) ≤ 2)%nat) ∧
  (length (filter is_infra_ui_warning (warnings busy_decision)) ≤ 1)%nat ∧
  (length (filter is_cross_module_warning (warnings busy_decision)) ≤ 1)%nat ∧
  (length (filter is_complexity_warning (warnings busy_decision)) ≤ 1)%nat.
Proof.
  apply (warnings_bounded plain_lower elements busy_files busy_description busy_decision).
  vm_compute. reflexivity.
Defined.

(** X2: the warning of check 2 gives a number that is the number of
    modules it lists, at least 4 and at most the number of paths with a
    ['/']; a LOCAL decision never carries it. *)
Theorem cross_module_needs_four (tl : pystr -> nat -> N -> pystr)
    (iter : gset pystr -> list pystr) (fs : list pystr) (description : pystr) :
  (∀ X, iter X ≡ₚ elements X) →
  (∀ w, w ∈ ScopeValidator.detect_anti_patterns tl iter fs description →
        is_cross_module_warning w →
        ∃ n listed, w = cross_module_warning n listed ∧ length listed = n ∧
                    (4 ≤ n ≤ length (filter has_slash fs))%nat) ∧
  (∀ d, ScopeValidator.analyze_scope tl iter fs description = Returned d →
        scope_level d = py "LOCAL" →
        ¬ ∃ w, w ∈ warnings d ∧ is_cross_module_warning w).
Proof.
  intros Hiter. split.
  - intros w Hw Hhd. which_check Hw; [wrong_header | | wrong_header].
    eexists _, _. split; [reflexivity|]. split; [by apply sorted_length|].
    pose proof (top_dirs_size fs). lia.
  - intros d Hr Hlocal (w & Hw & Hhd).
    destruct (analyze_scope_shape tl iter fs description d Hr)
      as (_ & _ & _ & adv & Hws & Hlvl).
    destruct Hlvl as [(Hn & _ & ->)|[(_ & Hl & _)|(_ & Hl & _)]];
      [|rewrite Hl in Hlocal; discriminate ..].
    rewrite Hws in Hw. simpl in Hw.
    which_check Hw; [wrong_header | | wrong_header].
    pose proof (top_dirs_size_files fs). lia.
Qed.

Lemma cross_module_needs_four_witness :
  (∀ w, w ∈ ScopeValidator.detect_anti_patterns plain_lower elements busy_files
              busy_description →
        is_cross_module_warning w →
        ∃ n listed, w = cross_module_warning n listed ∧ length listed = n ∧
                    (4 ≤ n ≤ length (filter has_slash busy_files))%nat) ∧
  (∀ d, ScopeValidator.analyze_scope plain_lower elements busy_files busy_description
          = Returned d →
        scope_level d = py "LOCAL" →
        ¬ ∃ w, w ∈ warnings d ∧ is_cross_module_warning w).
Proof.
  apply (cross_module_needs_four plain_lower elements busy_files busy_description).
  intros X. reflexivity.
Defined.

Lemma infra_ui_applies_perm (tl : pystr -> nat -> N -> pystr) (fs fs' : list pystr)
    (description : pystr) :
  fs ≡ₚ fs' → infra_ui_applies tl fs description → infra_ui_applies tl fs' description.
Proof.
  intros Hp (Hkw & f & Hf & Hinfra). split; [done|]. exists f. by rewrite <- Hp.
Qed.

(** X3: giving the files in another order changes neither the outcome, the
    tier, the count nor the number of warnings; of the detector's warnings
    only the one of check 1 can differ, and only in the order of the paths it
    names. *)
Theorem reorder_files (tl : pystr -> nat -> N -> pystr)
    (iter : gset pystr -> list pystr) (fs fs' : list pystr) (description : pystr) :
  fs ≡ₚ fs' →
  (∃ w1 w1' rest,
      ScopeValidator.detect_anti_patterns tl iter fs description = w1 ++ rest ∧
      ScopeValidator.detect_anti_patterns tl iter fs' description = w1' ++ rest ∧
      (w1 = [] ∧ w1' = []
       ∨ ∃ named named', named ≡ₚ named' ∧
           w1 = [infra_ui_warning named] ∧ w1' = [infra_ui_warning named'])) ∧
  match ScopeValidator.analyze_scope tl iter fs description,
        ScopeValidator.analyze_scope tl iter fs' description with
  | Returned d, Returned d' =>
      scope_level d = scope_level d' ∧ file_count d = file_count d' ∧
      length (warnings d) = length (warnings d')
  | Raised e, Raised e' =>
      ScopeValidator.exc_file_count e = ScopeValidator.exc_file_count e'
  | _, _ => False
  end.
Proof.
  intros Hp.
  assert (∃ w1 w1' rest,
      ScopeValidator.detect_anti_patterns tl iter fs description = w1 ++ rest ∧
      ScopeValidator.detect_anti_patterns tl iter fs' description = w1' ++ rest ∧
      (w1 = [] ∧ w1' = []
       ∨ ∃ named named', named ≡ₚ named' ∧
           w1 = [infra_ui_warning named] ∧ w1' = [infra_ui_warning named']))
    as Hdet.
  { destruct (detect_check_by_check tl iter fs description)
      as (w1 & w2 & w3 & -> & H1 & H2 & H3).
    destruct (detect_check_by_check tl iter fs' description)
      as (w1' & w2' & w3' & -> & H1' & H2' & H3').
    rewrite <- (top_dirs_of_perm fs fs' Hp) in H2'.
    assert (w2' = w2) as ->
      by (destruct H2 as [[? ->]|[? ->]], H2' as [[? ->]|[? ->]]; done).
    assert (w3' = w3) as ->
      by (destruct H3 as [[? ->]|[? ->]], H3' as [[? ->]|[? ->]]; done).
    exists w1, w1', (w2 ++ w3). split; [done|]. split; [done|].
    destruct H1 as [[Ha ->]|[Ha ->]], H1' as [[Ha' ->]|[Ha' ->]].
    - right. eexists _, _. split; [|done]. by rewrite Hp.
    - exfalso. apply Ha'. by apply (infra_ui_applies_perm tl fs fs').
    - exfalso. apply Ha. by apply (infra_ui_applies_perm tl fs' fs).
    - by left. }
  split; [exact Hdet|].
  pose proof (Permutation_length Hp) as Hlen.
  destruct (Nat.le_gt_cases (length fs) 10) as [Hle|Hgt].
  - destruct (analyze_scope_returns tl iter fs description Hle)
      as (lvl & adv & -> & Hlvl).
    destruct (analyze_scope_returns tl iter fs' description) as (lvl' & adv' & -> & Hlvl');
      [lia|]. simpl.
    destruct Hdet as (w1 & w1' & rest & -> & -> & Hw).
    assert (length w1 = length w1') as Hw1
      by (destruct Hw as [[-> ->]|(? & ? & _ & -> & ->)]; done).
    rewrite <- Hlen in Hlvl'. rewrite !length_app.
    destruct Hlvl as [(? & -> & ->)|[(? & -> & ->)|(? & -> & ->)]];
      destruct Hlvl' as [(? & -> & ->)|[(? & -> & ->)|(? & -> & ->)]];
      try lia; simpl; (split; [done|]); (split; [done|]); lia.
  - destruct (analyze_scope_raises tl iter fs description Hgt) as (e & -> & Hc & _).
    destruct (analyze_scope_raises tl iter fs' description) as (e' & -> & Hc' & _); [lia|].
    congruence.
Qed.

Lemma reorder_files_witness :
  (∃ w1 w1' rest,
      ScopeValidator.detect_anti_patterns plain_lower elements
        [py "Dockerfile"; py "a/x"; py "nginx.conf"] (py "Fix CSS") = w1 ++ rest ∧
      ScopeValidator.detect_anti_patterns plain_lower elements
        [py "nginx.conf"; py "Dockerfile"; py "a/x"] (py "Fix CSS") = w1' ++ rest ∧
      (w1 = [] ∧ w1' = []
       ∨ ∃ named named', named ≡ₚ named' ∧
           w1 = [infra_ui_warning named] ∧ w1' = [infra_ui_warning named'])) ∧
  match ScopeValidator.analyze_scope plain_lower elements
          [py "Dockerfile"; py "a/x"; py "nginx.conf"] (py "Fix CSS"),
        ScopeValidator.analyze_scope plain_lower elements
          [py "nginx.conf"; py "Dockerfile"; py "a/x"] (py "Fix CSS") with
  | Returned d, Returned d' =>
      scope_level d = scope_level d' ∧ file_count d = file_count d' ∧
      length (warnings d) = length (warnings d')
  | Raised e, Raised e' =>
      ScopeValidator.exc_file_count e = ScopeValidator.exc_file_count e'
  | _, _ => False
  end.
Proof.
  apply (reorder_files plain_lower elements
           [py "Dockerfile"; py "a/x"; py "nginx.conf"]
           [py "nginx.conf"; py "Dockerfile"; py "a/x"] (py "Fix CSS")).
  apply (Permutation_app_comm [py "Dockerfile"; py "a/x"] [py "nginx.conf"]).
Defined.

(** X4: when all the paths with a ['/'] begin with the same first segment
    (all absolute, with the empty segment, or all written [./...]), check 2
    does not warn, however many directories lie below. *)
Theorem shared_root_no_spread (tl : pystr -> nat -> N -> pystr)
    (iter : gset pystr -> list pystr) (fs : list pystr) (description m : pystr) :
  slash ∉ m →
  (∀ f, f ∈ fs → slash ∈ f → (m ++ [slash]) `prefix_of` f) →
  ¬ ∃ w, w ∈ ScopeValidator.detect_anti_patterns tl iter fs description ∧
         is_cross_module_warning w.
Proof.
  intros Hm Hfs (w & Hw & Hhd). which_check Hw; [wrong_header | | wrong_header].
  assert (top_dirs_of fs ⊆ {[ m ]}) as Hsub.
  { intros m' Hm'. apply top_dirs_of_modules in Hm' as (f & Hf & Htok).
    apply elem_of_singleton.
    destruct (Hfs f Hf (module_token_slash f m' Htok)) as [k Hk].
    apply (module_token_unique f); [done|].
    exists k. split; [|done]. by rewrite Hk, <- app_assoc. }
  apply subseteq_size in Hsub. rewrite size_singleton in Hsub. lia.
Qed.

Lemma shared_root_no_spread_witness :
  ¬ ∃ w, w ∈ ScopeValidator.detect_anti_patterns plain_lower elements
               [py "/etc/nginx.conf"; py "/srv/app/a.py"; py "/var/x"; py "/opt/y";
                py "/home/z"; py "notes.txt"]
               (py "Move things") ∧
         is_cross_module_warning w.
Proof.
  apply (shared_root_no_spread plain_lower elements
           [py "/etc/nginx.conf"; py "/srv/app/a.py"; py "/var/x"; py "/opt/y";
            py "/home/z"; py "notes.txt"]
           (py "Move things") []).
  - apply not_elem_of_nil.
  - intros f Hf Hs.
    repeat (apply elem_of_cons in Hf as [->|Hf]; [by eexists|]).
    apply elem_of_cons in Hf as [->|Hf].
    + exfalso. revert Hs. apply (bool_decide_unpack (¬ _)). vm_compute. exact I.
    + by apply elem_of_nil in Hf.
Defined.

(** X5: the message of a violation gives the number of files, names the
    first five of them and always ends with the dots; the description has no
    part in it. *)
Theorem violation_message (tl : pystr -> nat -> N -> pystr)
    (iter : gset pystr -> list pystr) (fs : list pystr) (description : pystr)
    (e : ScopeValidator.ScopeViolationError) :
  ScopeValidator.analyze_scope tl iter fs description = Raised e →
  ScopeValidator.exc_message e =
    py "Scope limit exceeded: " ++ str_of_nat (length fs) ++
    py " files requested (max: 10)" ++ nl ++
    py "Recommendation: Break this change into smaller, focused tasks" ++ nl ++
    py "Files: " ++ join (py ", ") (take 5 fs) ++ py "..." ∧
  length (take 5 fs) = 5%nat ∧
  ∀ description', ScopeValidator.analyze_scope tl iter fs description' = Raised e.
Proof.
  intros Hr. destruct (Nat.le_gt_cases (length fs) 10) as [Hle|Hgt].
  { destruct (analyze_scope_returns tl iter fs description Hle) as (? & ? & Hr' & _).
    rewrite Hr' in Hr. discriminate. }
  revert Hr. unfold ScopeValidator.analyze_scope. cbv zeta.
  destruct (Nat.ltb_spec 10 (length fs)) as [_|?]; [|lia].
  destruct (Nat.ltb_spec 5 (length fs)) as [_|?]; [|lia].
  intros [= <-]. simpl. split; [done|]. split; [|done].
  rewrite length_take. lia.
Qed.

Lemma violation_message_witness :
  ScopeValidator.exc_message eleven_error =
    py "Scope limit exceeded: " ++ str_of_nat (length eleven_files) ++
    py " files requested (max: 10)" ++ nl ++
    py "Recommendation: Break this change into smaller, focused tasks" ++ nl ++
    py "Files: " ++ join (py ", ") (take 5 eleven_files) ++ py "..." ∧
  length (take 5 eleven_files) = 5%nat ∧
  ∀ description',
    ScopeValidator.analyze_scope plain_lower elements eleven_files description'
    = Raised eleven_error.
Proof.
  apply (violation_message plain_lower elements eleven_files (py "Tidy") eleven_error).
  vm_compute. reflexivity.
Defined.

Lemma substring_nil_inv (sub : pystr) : substring sub [] → sub = [].
Proof.
  intros (a & b & H). symmetry in H.
  apply app_eq_nil in H as [_ H]. by apply app_eq_nil in H as [-> _].
Qed.

(** X6: with the empty description neither check 1 nor check 3 warns,
    whatever the files; what the detector returns is the warning of check 2
    or nothing. *)
Theorem empty_description (tl : pystr -> nat -> N -> pystr)
    (iter : gset pystr -> list pystr) (fs : list pystr) :
  (∀ w, w ∈ ScopeValidator.detect_anti_patterns tl iter fs [] →
        is_cross_module_warning w) ∧
  (length (ScopeValidator.detect_anti_patterns tl iter fs []) ≤ 1)%nat.
Proof.
  assert (∀ kws, [] ∉ kws → ¬ mentions kws (lower tl [])) as Hno.
  { intros kws Hk (kw & Hkw & Hsub). apply substring_nil_inv in Hsub as ->. done. }
  assert (¬ infra_ui_applies tl fs []) as H1.
  { intros [Hm _]. revert Hm. apply Hno.
    apply (bool_decide_unpack (¬ _)). vm_compute. exact I. }
  assert (¬ complexity_applies tl []) as H3.
  { intros [Hm _]. revert Hm. apply Hno.
    apply (bool_decide_unpack (¬ _)). vm_compute. exact I. }
  split.
  - intros w Hw. which_check Hw; [done | apply cross_module_warning_is | done].
  - destruct (detect_check_by_check tl iter fs [])
      as (w1 & w2 & w3 & -> & [[? _]|[_ ->]] & H2 & [[? _]|[_ ->]]); try done.
    destruct H2 as [[_ ->]|[_ ->]]; simpl; lia.
Qed.

Lemma ui_in_builder : substring (py "ui") (py "builder").
Proof. by exists (py "b"), (py "lder"). Qed.

Lemma substring_trans (a b c : pystr) : substring a b → substring b c → substring a c.
Proof.
  intros (x & y & ->) (u & v & ->). exists (u ++ x), (y ++ v).
  by rewrite <- !app_assoc.
Qed.

(** X7: the keywords are looked for inside words.  A description in which
    an ASCII word such as Build, guide or QUICK occurs counts as one about
    the UI, so with an infrastructure file check 1 warns; so does every
    description for which check 3 finds [builder]. *)
Theorem ui_inside_words (tl : pystr -> nat -> N -> pystr)
    (iter : gset pystr -> list pystr) (fs : list pystr) (description : pystr) :
  (∃ f, f ∈ fs ∧ names_infrastructure f) →
  (∀ word,
     Forall (fun c => (c < 128)%N) word → substring word description →
     substring (py "ui") (ascii_tolower <$> word) →
     ∃ w, w ∈ ScopeValidator.detect_anti_patterns tl iter fs description ∧
          is_infra_ui_warning w) ∧
  (substring (py "builder") (lower tl description) →
   ∃ w, w ∈ ScopeValidator.detect_anti_patterns tl iter fs description ∧
        is_infra_ui_warning w).
Proof.
  intros Hinfra.
  assert (substring (py "ui") (lower tl description) →
          ∃ w, w ∈ ScopeValidator.detect_anti_patterns tl iter fs description ∧
               is_infra_ui_warning w) as Hui.
  { intros Hsub. exists (infra_ui_warning (filter names_infrastructure fs)).
    split; [|apply infra_ui_warning_is]. apply detect_members. left.
    split; [|done]. split; [|done]. exists (py "ui"). split; [|done].
    apply (bool_decide_unpack _). vm_compute. exact I. }
  split.
  - intros word Hascii Hword Hin. apply Hui.
    eapply substring_trans; [exact Hin|]. by apply lower_substring.
  - intros Hb. apply Hui. eapply substring_trans; [apply ui_in_builder | exact Hb].
Qed.

Lemma ui_inside_words_witness :
  (∀ word,
     Forall (fun c => (c < 128)%N) word →
     substring word (py "Build the image faster") →
     substring (py "ui") (ascii_tolower <$> word) →
     ∃ w, w ∈ ScopeValidator.detect_anti_patterns plain_lower elements
                [py "Dockerfile"] (py "Build the image faster") ∧
          is_infra_ui_warning w) ∧
  (substring (py "builder") (lower plain_lower (py "Build the image faster")) →
   ∃ w, w ∈ ScopeValidator.detect_anti_patterns plain_lower elements
              [py "Dockerfile"] (py "Build the image faster") ∧
        is_infra_ui_warning w).
Proof.
  apply (ui_inside_words plain_lower elements [py "Dockerfile"]
           (py "Build the image faster")).
  exists (py "Dockerfile"). split; [left|].
  apply (bool_decide_unpack _). vm_compute. exact I.
Defined.

(** X8: with the same description, files added to a list silence no check:
    a check that warns for a list warns for every list that holds its
    paths; check 3 does not look at the files at all. *)
Theorem more_files_keep_warnings (tl : pystr -> nat -> N -> pystr)
    (iter : gset pystr -> list pystr) (fs fs' : list pystr) (description : pystr) :
  fs ⊆ fs' →
  ((∃ w, w ∈ ScopeValidator.detect_anti_patterns tl iter fs description ∧
         is_infra_ui_warning w) →
   ∃ w, w ∈ ScopeValidator.detect_anti_patterns tl iter fs' description ∧
        is_infra_ui_warning w) ∧
  ((∃ w, w ∈ ScopeValidator.detect_anti_patterns tl iter fs description ∧
         is_cross_module_warning w) →
   ∃ w, w ∈ ScopeValidator.detect_anti_patterns tl iter fs' description ∧
        is_cross_module_warning w) ∧
  (∀ w, is_complexity_warning w →
        (w ∈ ScopeValidator.detect_anti_patterns tl iter fs description ↔
         w ∈ ScopeValidator.detect_anti_patterns tl iter fs' description)).
Proof.
  intros Hsub. split; [|split].
  - intros (w & Hw & Hhd). which_check Hw; [|wrong_header ..].
    destruct H as (Hkw & f & Hf & Hinfra).
    eexists. split; [|apply infra_ui_warning_is]. apply detect_members. left.
    split; [|done]. split; [done|]. exists f. split; [by apply Hsub | done].
  - intros (w & Hw & Hhd). which_check Hw; [wrong_header | | wrong_header].
    eexists. split; [|apply cross_module_warning_is]. apply detect_members.
    right. left. split; [|done].
    pose proof (subseteq_size _ _ (top_dirs_of_subseteq fs fs' Hsub)). lia.
  - intros w Hhd. split; intros Hw; which_check Hw; try wrong_header;
      apply detect_members; right; right; by split.
Qed.

Lemma more_files_keep_warnings_witness :
  ((∃ w, w ∈ ScopeValidator.detect_anti_patterns plain_lower elements
               [py "Dockerfile"] (py "Fix CSS") ∧
         is_infra_ui_warning w) →
   ∃ w, w ∈ ScopeValidator.detect_anti_patterns plain_lower elements
              [py "src/a.css"; py "Dockerfile"; py "src/b.css"] (py "Fix CSS") ∧
        is_infra_ui_warning w) ∧
  ((∃ w, w ∈ ScopeValidator.detect_anti_patterns plain_lower elements
               [py "Dockerfile"] (py "Fix CSS") ∧
         is_cross_module_warning w) →
   ∃ w, w ∈ ScopeValidator.detect_anti_patterns plain_lower elements
              [py "src/a.css"; py "Dockerfile"; py "src/b.css"] (py "Fix CSS") ∧
        is_cross_module_warning w) ∧
  (∀ w, is_complexity_warning w →
        (w ∈ ScopeValidator.detect_anti_patterns plain_lower elements
               [py "Dockerfile"] (py "Fix CSS") ↔
         w ∈ ScopeValidator.detect_anti_patterns plain_lower elements
               [py "src/a.css"; py "Dockerfile"; py "src/b.css"] (py "Fix CSS"))).
Proof.
  apply (more_files_keep_warnings plain_lower elements
           [py "Dockerfile"] [py "src/a.css"; py "Dockerfile"; py "src/b.css"]
           (py "Fix CSS")).
  intros f Hf. apply list_elem_of_singleton in Hf as ->. right. left.
Defined.


(** * The command-line front ends *)

Section ScriptSteps.
Context {E : Type}.
Variable stdout_fault : pystr -> pystr -> option pystr.

Lemma write_all_app (out : pystr) (c1 c2 : list pystr) :
  write_all stdout_fault out (c1 ++ c2) =
    match write_all stdout_fault out c1 with
    | (out', None) => write_all stdout_fault out' c2
    | refused => refused
    end.
Proof.
  revert out. induction c1 as [|c c1 IH]; intros out; simpl; [done|].
  destruct (stdout_fault out c); [done | apply IH].
Qed.

Lemma after_writes_ext {A : Type} (chunks : list pystr) (k k' : script E A)
    (st : streams) :
  (∀ st', k st' = k' st') →
  after_writes stdout_fault chunks k st = after_writes stdout_fault chunks k' st.
Proof.
  intros Hk. unfold after_writes.
  destruct (write_all stdout_fault (stdout st) chunks) as [out [text|]]; [done | apply Hk].
Qed.

Lemma after_writes_app {A : Type} (c1 c2 : list pystr) (k : script E A) (st : streams) :
  after_writes stdout_fault (c1 ++ c2) k st =
  after_writes stdout_fault c1 (after_writes stdout_fault c2 k) st.
Proof.
  unfold after_writes. rewrite write_all_app.
  destruct (write_all stdout_fault (stdout st) c1) as [out [text|]]; done.
Qed.

Lemma after_writes_nil {A : Type} (k : script E A) (st : streams) :
  after_writes stdout_fault [] k st = k st.
Proof. unfold after_writes. simpl. by destruct st. Qed.

Lemma print_step {A : Type} (s : pystr) (k : script E A) (st : streams) :
  (print stdout_fault s ;; k) st = after_writes stdout_fault [s; nl] k st.
Proof.
  unfold after_writes, print, write, mbind, script_bind. simpl.
  destruct (stdout_fault (stdout st) s); [by destruct st|]. simpl.
  destruct (stdout_fault (stdout st ++ s) nl); done.
Qed.

Lemma eprint_then {A : Type} (s : pystr) (k : script E A) (st : streams) :
  (eprint s ;; k) st = k {| stdout := stdout st; stderr := stderr st ++ s ++ nl |}.
Proof. reflexivity. Qed.

Lemma ret_then {A : Type} (k : script E A) (st : streams) : (mret tt ;; k) st = k st.
Proof. reflexivity. Qed.

Lemma bind_assoc {A : Type} (m1 m2 : script E unit) (k : script E A) (st : streams) :
  ((m1 ;; m2) ;; k) st = (m1 ;; (m2 ;; k)) st.
Proof.
  unfold mbind, script_bind. destruct (m1 st) as [[r|[]] st']; reflexivity.
Qed.

Lemma for_each_print_step {A : Type} (f : pystr -> pystr) (ws : list pystr)
    (k : script E A) (st : streams) :
  (for_each ws (fun w => print stdout_fault (f w)) ;; k) st =
  after_writes stdout_fault (print_chunks (f <$> ws)) k st.
Proof.
  revert st. induction ws as [|w ws IH]; intros st.
  - by rewrite after_writes_nil.
  - change (for_each (E := E) (w :: ws) (fun w => print stdout_fault (f w)))
      with (print (E := E) stdout_fault (f w) ;;
            for_each ws (fun w => print stdout_fault (f w))).
    rewrite bind_assoc, print_step.
    change (print_chunks (f <$> w :: ws))
      with ([f w; nl] ++ print_chunks (f <$> ws)).
    rewrite after_writes_app. apply after_writes_ext. apply IH.
Qed.

(** One print of the script against the first two chunks of the report. *)
Lemma print_first {A : Type} (s : pystr) (rest : list pystr) (k k' : script E A)
    (st : streams) :
  (∀ st', k st' = after_writes stdout_fault rest k' st') →
  (print stdout_fault s ;; k) st = after_writes stdout_fault (s :: nl :: rest) k' st.
Proof.
  intros Hk. rewrite print_step.
  change (s :: nl :: rest) with ([s; nl] ++ rest).
  rewrite after_writes_app. by apply after_writes_ext.
Qed.
End ScriptSteps.

(** The prints of a front end for a decision, as the writes of the report. *)
Lemma report_prints {E : Type} (fault : pystr -> pystr -> option pystr)
    (d : ScopeDecision) (st : streams) :
  (print fault (nl ++ rule80) ;;
   print fault (py "SCOPE ANALYSIS") ;;
   print fault rule80 ;;
   print fault (py "Status: " ++ check_mark ++ py " APPROVED") ;;
   print fault (py "Scope Level: " ++ scope_level d) ;;
   print fault (py "File Count: " ++ str_of_nat (file_count d) ++ py "/" ++ str_of_nat 10) ;;
   (match warnings d with
    | _ :: _ =>
        print fault (nl ++ warning_sign ++ py "  WARNINGS:") ;;
        for_each (warnings d) (fun warning => print fault (py "  " ++ warning))
    | [] =>
        print fault (nl ++ check_mark ++ py " No warnings detected")
    end) ;;
   print fault (rule80 ++ nl) ;;
   (sys_exit 0 : script E unit)) st =
  after_writes fault (print_chunks (report_lines d)) (sys_exit 0) st.
Proof.
  unfold report_lines.
  destruct (warnings d) as [|w ws]; unfold print_chunks; cbn [fmap list_fmap concat app].
  - repeat (apply print_first; intros ?).
    by rewrite after_writes_nil.
  - repeat (apply print_first; intros ?).
    rewrite !bind_assoc. apply print_first. intros ?.
    rewrite for_each_print_step.
    rewrite fmap_app, concat_app.
    change ((py "  " ++ w) :: nl ::
            concat ((fun line => [line; nl]) <$> ((fun w0 => py "  " ++ w0) <$> ws)) ++
            concat ((fun line => [line; nl]) <$> [rule80 ++ nl]))
      with (print_chunks ((fun w0 => py "  " ++ w0) <$> w :: ws) ++ [rule80 ++ nl; nl]).
    rewrite after_writes_app. apply after_writes_ext. intros ?.
    apply print_first. intros ?. by rewrite after_writes_nil.
Qed.

Lemma call_returned {E A B : Type} (a : A) (k : A -> script E B) (st : streams) :
  (call (Returned a) ≫= k) st = k a st.
Proof. reflexivity. Qed.

Lemma call_raised {E A B : Type} (e : E) (k : A -> script E B) (st : streams) :
  (call (Raised e) ≫= k) st = (Raised (ScopeViolation e), st).
Proof. reflexivity. Qed.

Ltac stderr_steps :=
  repeat rewrite eprint_then;
  unfold sys_exit; cbv beta iota; cbn [stdout stderr app];
  rewrite <- ?app_assoc; cbn [app].

(** A run of the script, as a function of the arguments. *)
Lemma standalone_run (tl : pystr -> nat -> N -> pystr) (iter : gset pystr -> list pystr)
    (fault : pystr -> pystr -> option pystr) (argv : list pystr) :
  run (CheckScopeStandalone.main tl iter fault argv) =
    if (length argv <? 3)%nat then misuse (usage_text (py "check_scope_standalone.py"))
    else
      match cli_files argv with
      | [] => misuse (py "Error: No files specified" ++ nl)
      | _ :: _ =>
          match cli_description argv with
          | [] => misuse (py "Error: No description provided" ++ nl)
          | _ :: _ =>
              reported fault (ScopeValidator.analyze_scope tl iter
                                (cli_files argv) (cli_description argv))
          end
      end.
Proof.
  unfold run, CheckScopeStandalone.main, cli_files, cli_description.
  destruct (length argv <? 3)%nat; [reflexivity|].
  rewrite ret_then.
  destruct (index (py "--") argv) as [idx|].
  - generalize (drop 1 (take idx argv)) (join (py " ") (drop (idx + 1) argv)).
    intros fs description. cbv beta iota zeta.
    destruct fs as [|f fs]; [reflexivity|].
    destruct description as [|c description]; [reflexivity|].
    rewrite !ret_then. unfold try_except.
    destruct (ScopeValidator.analyze_scope tl iter (f :: fs) (c :: description))
      as [e|d]; unfold reported.
    + rewrite call_raised. unfold report_blocked. stderr_steps. reflexivity.
    + rewrite call_returned, report_prints. unfold after_writes. cbn [stdout stderr].
      destruct (write_all fault [] (print_chunks (report_lines d))) as [out [text|]];
        [|reflexivity].
      stderr_steps. reflexivity.
  - generalize (drop 1 (take (length argv - 1) argv)) (default [] (last argv)).
    intros fs description. cbv beta iota zeta.
    destruct fs as [|f fs]; [reflexivity|].
    destruct description as [|c description]; [reflexivity|].
    rewrite !ret_then. unfold try_except.
    destruct (ScopeValidator.analyze_scope tl iter (f :: fs) (c :: description))
      as [e|d]; unfold reported.
    + rewrite call_raised. unfold report_blocked. stderr_steps. reflexivity.
    + rewrite call_returned, report_prints. unfold after_writes. cbn [stdout stderr].
      destruct (write_all fault [] (print_chunks (report_lines d))) as [out [text|]];
        [|reflexivity].
      stderr_steps. reflexivity.
Qed.

Lemma tool_cli_run (tl : pystr -> nat -> N -> pystr) (iter : gset pystr -> list pystr)
    (fault : pystr -> pystr -> option pystr) (argv : list pystr) :
  run (CheckScope.main tl iter fault argv) =
    if (length argv <? 3)%nat then misuse (usage_text (py "check_scope.py"))
    else
      match cli_files argv with
      | [] => misuse (py "Error: No files specified" ++ nl)
      | _ :: _ =>
          match cli_description argv with
          | [] => misuse (py "Error: No description provided" ++ nl)
          | _ :: _ =>
              reported fault (ScopeValidator.analyze_scope tl iter
                                (cli_files argv) (cli_description argv))
          end
      end.
Proof.
  unfold run, CheckScope.main, CheckScope.analyze_integration_scope_sync,
    cli_files, cli_description.
  destruct (length argv <? 3)%nat; [reflexivity|].
  rewrite ret_then.
  destruct (index (py "--") argv) as [idx|].
  - generalize (drop 1 (take idx argv)) (join (py " ") (drop (idx + 1) argv)).
    intros fs description. cbv beta iota zeta.
    destruct fs as [|f fs]; [reflexivity|].
    destruct description as [|c description]; [reflexivity|].
    rewrite !ret_then. unfold try_except.
    pose proof (tool_same_runtime tl iter (f :: fs) (c :: description)) as Hs.
    destruct (ScopeValidator.analyze_scope tl iter (f :: fs) (c :: description))
      as [e|d],
      (IntegrationSpecialistTool._analyze_scope_impl tl iter (f :: fs) (c :: description))
      as [e'|d']; simpl in Hs; try done; unfold reported.
    + destruct Hs as (Hc & Hm & Hmsg).
      rewrite call_raised. unfold report_blocked. stderr_steps.
      by rewrite <- Hc, <- Hm, <- Hmsg.
    + subst d'. rewrite call_returned, report_prints. unfold after_writes.
      cbn [stdout stderr].
      destruct (write_all fault [] (print_chunks (report_lines d))) as [out [text|]];
        [|reflexivity].
      stderr_steps. reflexivity.
  - generalize (drop 1 (take (length argv - 1) argv)) (default [] (last argv)).
    intros fs description. cbv beta iota zeta.
    destruct fs as [|f fs]; [reflexivity|].
    destruct description as [|c description]; [reflexivity|].
    rewrite !ret_then. unfold try_except.
    pose proof (tool_same_runtime tl iter (f :: fs) (c :: description)) as Hs.
    destruct (ScopeValidator.analyze_scope tl iter (f :: fs) (c :: description))
      as [e|d],
      (IntegrationSpecialistTool._analyze_scope_impl tl iter (f :: fs) (c :: description))
      as [e'|d']; simpl in Hs; try done; unfold reported.
    + destruct Hs as (Hc & Hm & Hmsg).
      rewrite call_raised. unfold report_blocked. stderr_steps.
      by rewrite <- Hc, <- Hm, <- Hmsg.
    + subst d'. rewrite call_returned, report_prints. unfold after_writes.
      cbn [stdout stderr].
      destruct (write_all fault [] (print_chunks (report_lines d))) as [out [text|]];
        [|reflexivity].
      stderr_steps. reflexivity.
Qed.

(** What is written when nothing is refused, and when something is. *)
Lemma write_all_accepted (fault : pystr -> pystr -> option pystr) (out : pystr)
    (chunks : list pystr) :
  (∀ held s, fault held s = None) →
  write_all fault out chunks = (out ++ concat chunks, None).
Proof.
  intros Hok. revert out. induction chunks as [|c chunks IH]; intros out; simpl.
  - by rewrite app_nil_r.
  - by rewrite Hok, IH, <- app_assoc.
Qed.

Lemma write_all_refused (fault : pystr -> pystr -> option pystr) (out out' : pystr)
    (chunks : list pystr) (text : pystr) :
  write_all fault out chunks = (out', Some text) →
  ∃ before chunk after,
    chunks = before ++ chunk :: after ∧ out' = out ++ concat before ∧
    fault out' chunk = Some text.
Proof.
  revert out. induction chunks as [|c chunks IH]; intros out; simpl; [done|].
  destruct (fault out c) as [t|] eqn:Hf.
  - intros [= <- <-]. exists [], c, chunks. simpl.
    split; [done|]. split; [by rewrite app_nil_r | done].
  - intros (before & chunk & after & -> & -> & Hc)%IH.
    exists (c :: before), chunk, after. simpl.
    split; [done|]. split; [by rewrite <- app_assoc | done].
Qed.

Lemma report_chunks_concat (d : ScopeDecision) :
  concat (print_chunks (report_lines d)) = report_approved d.
Proof.
  unfold report_lines, report_approved, print_chunks.
  destruct (warnings d) as [|w ws]; cbn [fmap list_fmap concat app].
  - rewrite <- ?app_assoc. cbn [app]. by rewrite app_nil_r.
  - assert (concat (concat ((fun line : pystr => [line; nl]) <$>
                              ((fun w0 : pystr => py "  " ++ w0) <$> ws) ++ [rule80 ++ nl]))
            = concat ((fun w0 : pystr => (py "  " ++ w0) ++ nl) <$> ws) ++
              rule80 ++ nl ++ nl) as Hws.
    { induction ws as [|w' ws IH]; cbn [fmap list_fmap concat app].
      - rewrite <- ?app_assoc. cbn [app]. by rewrite app_nil_r.
      - rewrite <- ?app_assoc. cbn [app]. by rewrite IH. }
    rewrite <- ?app_assoc. cbn [app]. by rewrite Hws.
Qed.

Lemma report_chunks_nonempty (d : ScopeDecision) :
  Forall (fun chunk => chunk ≠ []) (print_chunks (report_lines d)).
Proof.
  unfold report_lines, print_chunks.
  assert (∀ ws : list pystr,
    Forall (fun chunk => chunk ≠ [])
      (concat ((fun line => [line; nl]) <$> ((fun w => py "  " ++ w) <$> ws)))) as Hws.
  { induction ws as [|w ws IH]; [constructor|].
    cbn [fmap list_fmap concat app]. repeat (constructor; [discriminate|]). exact IH. }
  destruct (warnings d) as [|w ws]; cbn [fmap list_fmap concat app].
  - repeat (constructor; [discriminate|]). constructor.
  - repeat (constructor; [discriminate|]).
    rewrite fmap_app, concat_app. apply Forall_app. split; [apply Hws|].
    cbn [fmap list_fmap concat app]. repeat (constructor; [discriminate|]). constructor.
Qed.

Lemma reported_accepted (fault : pystr -> pystr -> option pystr) (d : ScopeDecision) :
  (∀ held s, fault held s = None) →
  reported fault (Returned d) =
    {| exit_code := 0; written := {| stdout := report_approved d; stderr := [] |} |}.
Proof.
  intros Hok. unfold reported.
  by rewrite (write_all_accepted fault [] _ Hok), app_nil_l, report_chunks_concat.
Qed.

Lemma reported_refused (fault : pystr -> pystr -> option pystr) (d : ScopeDecision)
    (out text : pystr) :
  write_all fault [] (print_chunks (report_lines d)) = (out, Some text) →
  out `prefix_of` report_approved d ∧ (length out < length (report_approved d))%nat.
Proof.
  intros (before & chunk & after & Hchunks & -> & _)%write_all_refused.
  pose proof (report_chunks_nonempty d) as Hne. rewrite Hchunks in Hne.
  apply Forall_app in Hne as [_ Hne]. apply Forall_cons in Hne as [Hne _].
  rewrite <- report_chunks_concat, Hchunks, concat_app. simpl. split.
  - by eexists.
  - rewrite !length_app. destruct chunk; [done|]. simpl. lia.
Qed.

Lemma index_first (x : pystr) (l1 l2 : list pystr) :
  x ∉ l1 → index x (l1 ++ x :: l2) = Some (length l1).
Proof.
  induction l1 as [|y l1 IH]; simpl; intros Hx.
  - by rewrite decide_True.
  - apply not_elem_of_cons in Hx as [Hne Hx].
    rewrite decide_False by done. by rewrite IH.
Qed.

Lemma index_absent (x : pystr) (l : list pystr) : x ∉ l → index x l = None.
Proof.
  induction l as [|y l IH]; simpl; intros Hx; [done|].
  apply not_elem_of_cons in Hx as [Hne Hx].
  rewrite decide_False by done. by rewrite IH.
Qed.

Lemma cli_parse_separator (prog : pystr) (fs words : list pystr) :
  py "--" ∉ prog :: fs →
  cli_files (prog :: fs ++ py "--" :: words) = fs ∧
  cli_description (prog :: fs ++ py "--" :: words) = join (py " ") words.
Proof.
  intros Hno. unfold cli_files, cli_description.
  change (prog :: fs ++ py "--" :: words) with ((prog :: fs) ++ py "--" :: words).
  rewrite (index_first _ _ _ Hno). split.
  - rewrite take_app_length. done.
  - rewrite cons_middle, app_assoc.
    replace (length (prog :: fs) + 1)%nat with (length ((prog :: fs) ++ [py "--"]))
      by (rewrite length_app; simpl; lia).
    by rewrite drop_app_length.
Qed.

Lemma cli_parse_no_separator (prog : pystr) (fs : list pystr) (description : pystr) :
  py "--" ∉ prog :: fs ++ [description] →
  cli_files (prog :: fs ++ [description]) = fs ∧
  cli_description (prog :: fs ++ [description]) = description.
Proof.
  intros Hno. unfold cli_files, cli_description.
  rewrite (index_absent _ _ Hno). split.
  - change (prog :: fs ++ [description]) with ((prog :: fs) ++ [description]).
    replace (length ((prog :: fs) ++ [description]) - 1)%nat with (length (prog :: fs))
      by (rewrite length_app; simpl; lia).
    by rewrite take_app_length.
  - change (prog :: fs ++ [description]) with ((prog :: fs) ++ [description]).
    by rewrite last_snoc.
Qed.

(** X9: called as [prog file... -- word...], the script analyses the
    arguments before the first [--] as the files and the arguments after it,
    joined by single spaces, as the description (a later [--] is a word of
    the description).  For a violation it exits with 1 and the report on
    standard error.  For a decision it prints the report and exits with 0;
    if standard output refuses one of the writes, it stops printing there,
    writes the error on standard error and exits with 2. *)
Theorem cli_with_separator (tl : pystr -> nat -> N -> pystr)
    (iter : gset pystr -> list pystr) (fault : pystr -> pystr -> option pystr)
    (prog : pystr) (fs words : list pystr) :
  py "--" ∉ prog :: fs → fs ≠ [] → join (py " ") words ≠ [] →
  run (CheckScopeStandalone.main tl iter fault (prog :: fs ++ py "--" :: words)) =
    reported fault (ScopeValidator.analyze_scope tl iter fs (join (py " ") words)).
Proof.
  intros Hno Hfs Hwords. rewrite standalone_run.
  destruct (cli_parse_separator prog fs words Hno) as [-> ->].
  destruct (Nat.ltb_spec (length (prog :: fs ++ py "--" :: words)) 3) as [Hlen|_].
  { exfalso. simpl in Hlen. rewrite length_app in Hlen. simpl in Hlen.
    destruct fs; [done|]. destruct words; [done|]. simpl in Hlen. lia. }
  destruct fs; [done|]. by destruct (join (py " ") words).
Qed.

(** A path with a lone surrogate, as [sys.argv] holds it for a file name
    that is not valid UTF-8, under a standard output with the strict
    encoding. *)
Lemma cli_with_separator_witness :
  run (CheckScopeStandalone.main plain_lower elements strict_utf8_stdout
         (py "check_scope_standalone.py" ::
          [py "src/app.css"; py "Dockerfile" ++ [56575]%N] ++
          py "--" :: [py "Fix"; py "--"; py "CSS"])) =
    reported strict_utf8_stdout
      (ScopeValidator.analyze_scope plain_lower elements
         [py "src/app.css"; py "Dockerfile" ++ [56575]%N]
         (join (py " ") [py "Fix"; py "--"; py "CSS"])).
Proof.
  apply (cli_with_separator plain_lower elements strict_utf8_stdout
           (py "check_scope_standalone.py")
           [py "src/app.css"; py "Dockerfile" ++ [56575]%N]
           [py "Fix"; py "--"; py "CSS"]).
  - apply (bool_decide_unpack (¬ _)). vm_compute. exact I.
  - discriminate.
  - vm_compute. discriminate.
Defined.

(** X10: called without [--], the script takes the last argument alone as
    the description and every argument before it as a file: of a
    description given as several words, all but the last are counted as
    files.  What it then does is as with the separator. *)
Theorem cli_without_separator (tl : pystr -> nat -> N -> pystr)
    (iter : gset pystr -> list pystr) (fault : pystr -> pystr -> option pystr)
    (prog : pystr) (fs : list pystr) (description : pystr) :
  py "--" ∉ prog :: fs ++ [description] → fs ≠ [] → description ≠ [] →
  run (CheckScopeStandalone.main tl iter fault (prog :: fs ++ [description])) =
    reported fault (ScopeValidator.analyze_scope tl iter fs description).
Proof.
  intros Hno Hfs Hd. rewrite standalone_run.
  destruct (cli_parse_no_separator prog fs description Hno) as [-> ->].
  destruct (Nat.ltb_spec (length (prog :: fs ++ [description])) 3) as [Hlen|_].
  { exfalso. simpl in Hlen. rewrite length_app in Hlen. simpl in Hlen.
    destruct fs; [done|]. simpl in Hlen. lia. }
  destruct fs; [done|]. by destruct description.
Qed.

Lemma cli_without_separator_witness :
  run (CheckScopeStandalone.main plain_lower elements strict_utf8_stdout
         (py "check_scope_standalone.py" ::
          [py "Dockerfile" ++ [56575]%N; py "Fix"] ++ [py "CSS"])) =
    reported strict_utf8_stdout
      (ScopeValidator.analyze_scope plain_lower elements
         [py "Dockerfile" ++ [56575]%N; py "Fix"] (py "CSS")).
Proof.
  apply (cli_without_separator plain_lower elements strict_utf8_stdout
           (py "check_scope_standalone.py")
           [py "Dockerfile" ++ [56575]%N; py "Fix"] (py "CSS")).
  - apply (bool_decide_unpack (¬ _)). vm_compute. exact I.
  - discriminate.
  - discriminate.
Defined.

(** The run that standard output cuts short: the report up to the line of
    the warning that names the path, the error, exit code 2. *)
Example surrogate_path_cuts_report :
  run (CheckScopeStandalone.main plain_lower elements strict_utf8_stdout
         [py "check_scope_standalone.py"; py "Dockerfile" ++ [56575]%N; py "Fix CSS"]) =
  {| exit_code := 2;
     written :=
       {| stdout :=
            nl ++ rule80 ++ nl ++ py "SCOPE ANALYSIS" ++ nl ++ rule80 ++ nl ++
            py "Status: " ++ check_mark ++ py " APPROVED" ++ nl ++
            py "Scope Level: LOCAL" ++ nl ++ py "File Count: 1/10" ++ nl ++
            nl ++ warning_sign ++ py "  WARNINGS:" ++ nl;
          stderr :=
            nl ++ cross_mark ++
            py " ERROR: 'utf-8' codec can't encode character '\udcff' in position 83: " ++
            py "surrogates not allowed" ++ nl ++ nl |} |}.
Proof. vm_compute. reflexivity. Qed.

Example same_path_accepted :
  run (CheckScopeStandalone.main plain_lower elements accepts_all
         [py "check_scope_standalone.py"; py "Dockerfile" ++ [56575]%N; py "Fix CSS"]) =
  {| exit_code := 0;
     written :=
       {| stdout :=
            report_approved
              {| approved := true;
                 scope_level := py "LOCAL";
                 file_count := 1;
                 warnings := [infra_ui_warning [py "Dockerfile" ++ [56575]%N]];
                 files := [py "Dockerfile" ++ [56575]%N] |};
          stderr := [] |} |}.
Proof. vm_compute. reflexivity. Qed.

Lemma misuse_exit (message : pystr) :
  exit_code (misuse message) = 2%nat ∧ stdout (written (misuse message)) = [].
Proof. done. Qed.

Lemma standalone_misuse (tl : pystr -> nat -> N -> pystr) (iter : gset pystr -> list pystr)
    (fault : pystr -> pystr -> option pystr) (argv : list pystr) :
  (length argv < 3)%nat ∨ cli_files argv = [] ∨ cli_description argv = [] →
  exit_code (run (CheckScopeStandalone.main tl iter fault argv)) = 2%nat ∧
  stdout (written (run (CheckScopeStandalone.main tl iter fault argv))) = [].
Proof.
  intros H. rewrite standalone_run.
  destruct (Nat.ltb_spec (length argv) 3) as [?|Hge]; [apply misuse_exit|].
  destruct H as [?|[-> | H]]; [lia | apply misuse_exit |].
  rewrite H. destruct (cli_files argv); apply misuse_exit.
Qed.

(** X11: the script exits with 2 and writes nothing on standard output
    when it has fewer than two arguments, when no file stands before the
    [--], and when nothing or only an empty string follows the [--]. *)
Theorem cli_misuse (tl : pystr -> nat -> N -> pystr) (iter : gset pystr -> list pystr)
    (fault : pystr -> pystr -> option pystr) :
  let ends_with_2 argv :=
    exit_code (run (CheckScopeStandalone.main tl iter fault argv)) = 2%nat ∧
    stdout (written (run (CheckScopeStandalone.main tl iter fault argv))) = [] in
  (∀ argv, (length argv < 3)%nat →
     run (CheckScopeStandalone.main tl iter fault argv) =
       misuse (usage_text (py "check_scope_standalone.py"))) ∧
  (∀ prog words, ends_with_2 (prog :: py "--" :: words)) ∧
  (∀ prog fs, py "--" ∉ prog :: fs →
     ends_with_2 (prog :: fs ++ [py "--"]) ∧ ends_with_2 (prog :: fs ++ [py "--"; []])).
Proof.
  intros ends_with_2. unfold ends_with_2. split; [|split].
  - intros argv Hlen. rewrite standalone_run.
    by destruct (Nat.ltb_spec (length argv) 3) as [_|?]; [|lia].
  - intros prog words. apply standalone_misuse. right. left.
    unfold cli_files. destruct (decide (prog = py "--")) as [->|Hne].
    + change (py "--" :: py "--" :: words) with ([] ++ py "--" :: py "--" :: words).
      rewrite index_first; [done | apply not_elem_of_nil].
    + change (prog :: py "--" :: words) with ([prog] ++ py "--" :: words).
      rewrite index_first; [done|]. rewrite list_elem_of_singleton. congruence.
  - intros prog fs Hno. split; apply standalone_misuse; right; right.
    + by destruct (cli_parse_separator prog fs [] Hno) as [_ ->].
    + by destruct (cli_parse_separator prog fs [[]] Hno) as [_ ->].
Qed.

Lemma write_all_done (fault : pystr -> pystr -> option pystr) (out out' : pystr)
    (chunks : list pystr) :
  write_all fault out chunks = (out', None) → out' = out ++ concat chunks.
Proof.
  revert out. induction chunks as [|c chunks IH]; intros out; simpl.
  - intros [= <-]. by rewrite app_nil_r.
  - destruct (fault out c); [done|]. intros ->%IH. by rewrite <- app_assoc.
Qed.

Lemma report_approved_nonempty (d : ScopeDecision) : report_approved d ≠ [].
Proof. unfold report_approved. discriminate. Qed.

Lemma report_blocked_nonempty (message : pystr) (count max : nat) :
  report_blocked message count max ≠ [].
Proof. unfold report_blocked. discriminate. Qed.

(** The script always ends through [sys.exit]: no exception is left
    uncaught. *)
Lemma standalone_exits (tl : pystr -> nat -> N -> pystr) (iter : gset pystr -> list pystr)
    (fault : pystr -> pystr -> option pystr) (argv : list pystr) (st : streams) :
  ∃ code, (CheckScopeStandalone.main tl iter fault argv st).1 = Raised (SystemExit code).
Proof.
  unfold CheckScopeStandalone.main.
  destruct (length argv <? 3)%nat; [by eexists|]. rewrite ret_then.
  destruct (index (py "--") argv) as [idx|].
  - generalize (drop 1 (take idx argv)) (join (py " ") (drop (idx + 1) argv)).
    intros fs description. cbv beta iota zeta.
    destruct fs as [|f fs]; [by eexists|].
    destruct description as [|c description]; [by eexists|].
    rewrite !ret_then. unfold try_except.
    destruct (ScopeValidator.analyze_scope tl iter (f :: fs) (c :: description))
      as [e|d].
    + rewrite call_raised. by eexists.
    + rewrite call_returned, report_prints. unfold after_writes.
      destruct (write_all fault (stdout st) (print_chunks (report_lines d)))
        as [out [text|]]; by eexists.
  - generalize (drop 1 (take (length argv - 1) argv)) (default [] (last argv)).
    intros fs description. cbv beta iota zeta.
    destruct fs as [|f fs]; [by eexists|].
    destruct description as [|c description]; [by eexists|].
    rewrite !ret_then. unfold try_except.
    destruct (ScopeValidator.analyze_scope tl iter (f :: fs) (c :: description))
      as [e|d].
    + rewrite call_raised. by eexists.
    + rewrite call_returned, report_prints. unfold after_writes.
      destruct (write_all fault (stdout st) (print_chunks (report_lines d)))
        as [out [text|]]; by eexists.
Qed.

(** X12: whatever the arguments and whatever standard output refuses, the
    script ends through [sys.exit] with 0, 1 or 2, and standard error is
    empty exactly when the code is 0.  With 0 the whole report of a decision
    on 1 to 10 files is on standard output.  With 1 standard output is empty
    and standard error reports a violation on more than 10 files.  With 2 it
    is a misuse, with standard output empty, or a refused write, with a
    proper beginning of the report on standard output and the error on
    standard error.  When standard output refuses nothing, something is on
    standard output exactly when the code is 0. *)
Theorem cli_streams (tl : pystr -> nat -> N -> pystr) (iter : gset pystr -> list pystr)
    (fault : pystr -> pystr -> option pystr) (argv : list pystr) :
  let p := run (CheckScopeStandalone.main tl iter fault argv) in
  (∀ st, ∃ code,
     (CheckScopeStandalone.main tl iter fault argv st).1 = Raised (SystemExit code)) ∧
  (exit_code p = 0 ∨ exit_code p = 1 ∨ exit_code p = 2)%nat ∧
  (exit_code p = 0%nat ↔ stderr (written p) = []) ∧
  (exit_code p = 0%nat →
     ∃ fs description d,
       ScopeValidator.analyze_scope tl iter fs description = Returned d ∧
       description ≠ [] ∧ (1 ≤ file_count d ≤ 10)%nat ∧
       stdout (written p) = report_approved d) ∧
  (exit_code p = 1%nat →
     ∃ fs description e,
       ScopeValidator.analyze_scope tl iter fs description = Raised e ∧
       (10 < length fs)%nat ∧
       stdout (written p) = [] ∧
       stderr (written p) =
         report_blocked (ScopeValidator.exc_message e) (length fs) 10) ∧
  (exit_code p = 2%nat →
     (∃ message, p = misuse message)
     ∨ ∃ fs description d text,
         ScopeValidator.analyze_scope tl iter fs description = Returned d ∧
         stdout (written p) `prefix_of` report_approved d ∧
         (length (stdout (written p)) < length (report_approved d))%nat ∧
         stderr (written p) = nl ++ cross_mark ++ py " ERROR: " ++ text ++ nl ++ nl) ∧
  ((∀ held s, fault held s = None) →
   (exit_code p = 0%nat ↔ stdout (written p) ≠ [])).
Proof.
  intros p. split; [intros st; apply standalone_exits|].
  unfold p. rewrite standalone_run.
  assert (∀ message, message ≠ [] →
    let q := misuse message in
    (exit_code q = 0 ∨ exit_code q = 1 ∨ exit_code q = 2)%nat ∧
    (exit_code q = 0%nat ↔ stderr (written q) = []) ∧
    (exit_code q = 0%nat →
       ∃ fs description d,
         ScopeValidator.analyze_scope tl iter fs description = Returned d ∧
         description ≠ [] ∧ (1 ≤ file_count d ≤ 10)%nat ∧
         stdout (written q) = report_approved d) ∧
    (exit_code q = 1%nat →
       ∃ fs description e,
         ScopeValidator.analyze_scope tl iter fs description = Raised e ∧
         (10 < length fs)%nat ∧
         stdout (written q) = [] ∧
         stderr (written q) =
           report_blocked (ScopeValidator.exc_message e) (length fs) 10) ∧
    (exit_code q = 2%nat →
       (∃ message, q = misuse message)
       ∨ ∃ fs description d text,
           ScopeValidator.analyze_scope tl iter fs description = Returned d ∧
           stdout (written q) `prefix_of` report_approved d ∧
           (length (stdout (written q)) < length (report_approved d))%nat ∧
           stderr (written q) = nl ++ cross_mark ++ py " ERROR: " ++ text ++ nl ++ nl) ∧
    ((∀ held s, fault held s = None) →
     (exit_code q = 0%nat ↔ stdout (written q) ≠ []))) as Hmis.
  { intros message Hne. simpl.
    split; [auto|]. split; [done|]. split; [done|]. split; [done|].
    split; [intros _; left; by eexists | done]. }
  destruct (length argv <? 3)%nat; [apply Hmis; discriminate|].
  destruct (cli_files argv) as [|f fs] eqn:Hfs; [apply Hmis; discriminate|].
  destruct (cli_description argv) as [|c description] eqn:Hd;
    [apply Hmis; discriminate|].
  destruct (ScopeValidator.analyze_scope tl iter (f :: fs) (c :: description))
    as [e|d] eqn:Hr; unfold reported.
  - pose proof (report_blocked_nonempty (ScopeValidator.exc_message e)
                  (ScopeValidator.exc_file_count e) (ScopeValidator.exc_max_allowed e)).
    simpl. split; [auto|]. split; [done|]. split; [done|].
    split; [|split; [done|done]].
    intros _. exists (f :: fs), (c :: description), e.
    destruct (Nat.le_gt_cases (length (f :: fs)) 10) as [Hle|Hgt].
    { destruct (analyze_scope_returns tl iter (f :: fs) (c :: description) Hle)
        as (? & ? & Hr' & _). rewrite Hr' in Hr. discriminate. }
    destruct (analyze_scope_raises tl iter (f :: fs) (c :: description) Hgt)
      as (e' & Hr' & Hc & Hm).
    rewrite Hr' in Hr. injection Hr as ->. rewrite Hc, Hm. done.
  - destruct (analyze_scope_shape tl iter (f :: fs) (c :: description) d Hr)
      as (Hle & _ & Hc & _).
    destruct (write_all fault [] (print_chunks (report_lines d)))
      as [out [text|]] eqn:Hw; simpl.
    + split; [auto|]. split; [done|]. split; [done|]. split; [done|]. split.
      * intros _. right. exists (f :: fs), (c :: description), d, text.
        split; [done|]. destruct (reported_refused fault d out text Hw). done.
      * intros Hok. rewrite (write_all_accepted fault [] _ Hok) in Hw. discriminate.
    + apply write_all_done in Hw. rewrite app_nil_l, report_chunks_concat in Hw.
      subst out. pose proof (report_approved_nonempty d).
      split; [auto|]. split; [done|]. split; [|split; [done|split; [done|done]]].
      intros _. exists (f :: fs), (c :: description), d.
      split; [done|]. split; [done|]. split; [|done]. rewrite Hc. simpl in *. lia.
Qed.

(** X13: the two scripts, [check_scope.py] and [check_scope_standalone.py],
    end with the same exit code and the same standard output on all
    arguments, and with two arguments or more with the same standard
    error. *)
Theorem two_scripts_agree (tl : pystr -> nat -> N -> pystr)
    (iter1 iter2 : gset pystr -> list pystr) (fault : pystr -> pystr -> option pystr)
    (argv : list pystr) :
  (∀ X, iter1 X ≡ₚ elements X) → (∀ X, iter2 X ≡ₚ elements X) →
  let p1 := run (CheckScope.main tl iter1 fault argv) in
  let p2 := run (CheckScopeStandalone.main tl iter2 fault argv) in
  exit_code p1 = exit_code p2 ∧
  stdout (written p1) = stdout (written p2) ∧
  ((3 ≤ length argv)%nat → p1 = p2).
Proof.
  intros H1 H2 p1 p2. unfold p1, p2. rewrite tool_cli_run, standalone_run.
  destruct (Nat.ltb_spec (length argv) 3) as [?|_]; [split; [done|split; [done|lia]]|].
  rewrite (analyze_scope_iter_irrelevant tl iter1 iter2 _ _ H1 H2). done.
Qed.

Lemma two_scripts_agree_witness :
  let p1 := run (CheckScope.main plain_lower elements accepts_all
                   [py "prog"; py "a/x"; py "b/x"; py "c/x"; py "d/x"; py "--"; py "Fix"]) in
  let p2 := run (CheckScopeStandalone.main plain_lower (fun X => reverse (elements X))
                   accepts_all
                   [py "prog"; py "a/x"; py "b/x"; py "c/x"; py "d/x"; py "--"; py "Fix"]) in
  exit_code p1 = exit_code p2 ∧
  stdout (written p1) = stdout (written p2) ∧
  ((3 ≤ length [py "prog"; py "a/x"; py "b/x"; py "c/x"; py "d/x"; py "--"; py "Fix"])%nat →
   p1 = p2).
Proof.
  apply (two_scripts_agree plain_lower elements (fun X => reverse (elements X)) accepts_all
           [py "prog"; py "a/x"; py "b/x"; py "c/x"; py "d/x"; py "--"; py "Fix"]).
  - intros X. reflexivity.
  - intros X. apply reverse_Permutation.
Defined.

(** * The tool handler *)

(** X14: the handler raises only for a missing key, [KeyError('files')]
    before [KeyError('description')] and before any count; with both keys it
    always returns one text block: with more than 10 files the response is
    marked [is_error], has no ["result"], and its ["error"] carries the count
    and 10; otherwise its ["result"] is the decision of [_analyze_scope_impl]
    and it has neither ["is_error"] nor ["error"]. *)
Theorem tool_handler_outcome (tl : pystr -> nat -> N -> pystr)
    (iter : gset pystr -> list pystr) (args : SdkTool.tool_args) :
  match SdkTool.arg_files args, SdkTool.arg_description args with
  | None, _ =>
      SdkTool.analyze_integration_scope tl iter args =
        Raised (SdkTool.MissingKey (py "files"))
  | Some _, None =>
      SdkTool.analyze_integration_scope tl iter args =
        Raised (SdkTool.MissingKey (py "description"))
  | Some fs, Some description =>
      ∃ r text,
        SdkTool.analyze_integration_scope tl iter args = Returned r ∧
        SdkTool.content r =
          [{| SdkTool.block_type := py "text"; SdkTool.block_text := text |}] ∧
        ((10 < length fs)%nat ∧
         SdkTool.response_result r = None ∧
         SdkTool.is_error r = Some true ∧
         SdkTool.error r =
           Some {| SdkTool.error_type := py "ScopeViolationError";
                   SdkTool.error_file_count := length fs;
                   SdkTool.error_max_allowed := 10 |}
         ∨ (length fs ≤ 10)%nat ∧
           (∃ d, IntegrationSpecialistTool._analyze_scope_impl tl iter fs description =
                   Returned d ∧
                 SdkTool.response_result r = Some d) ∧
           SdkTool.is_error r = None ∧
           SdkTool.error r = None)
  end.
Proof.
  unfold SdkTool.analyze_integration_scope.
  destruct (SdkTool.arg_files args) as [fs|]; [|done].
  destruct (SdkTool.arg_description args) as [description|]; [|done].
  pose proof (tool_same_runtime tl iter fs description) as Hs.
  destruct (Nat.le_gt_cases (length fs) 10) as [Hle|Hgt].
  - destruct (analyze_scope_returns tl iter fs description Hle) as (? & ? & Hr & _).
    rewrite Hr in Hs.
    destruct (IntegrationSpecialistTool._analyze_scope_impl tl iter fs description)
      as [e'|d']; simpl in Hs; [done|]. subst d'.
    eexists _, _. split; [reflexivity|]. split; [reflexivity|]. right. simpl.
    split; [done|]. split; [by eexists|]. done.
  - destruct (analyze_scope_raises tl iter fs description Hgt) as (e & Hr & Hc & Hm).
    rewrite Hr in Hs.
    destruct (IntegrationSpecialistTool._analyze_scope_impl tl iter fs description)
      as [e'|d']; simpl in Hs; [|done]. destruct Hs as (Hc' & Hm' & _).
    eexists _, _. split; [reflexivity|]. split; [reflexivity|]. left. simpl.
    rewrite <- Hc', <- Hm', Hc, Hm. by repeat split.
Qed.
